(** * ansible_secrets: secret retrieval and connection bootstrap

    A shallow embedding of [secret_retriever.py] and
    [ansible_secret_helpers/connection_helpers.py].

    Conventions.
    - A Python [str] is a Rocq [string]; each character stands for one code
      point in the range U+0000..U+00FF.
    - Everything outside the two modules (the file system, the [gpg] process,
      [ldap3], [cx_Oracle], [sqlalchemy]) is an oracle of the record [World].
    - A function body is a computation in the monad [M E S A]: it reads and
      writes the local variables of its frame [S], appends the effects it has
      on the outside to a trace, and ends by returning, by raising an
      exception of type [E], or by leaving the process through [sys.exit].
    - Exceptions are instances of subclasses of [Exception]; these are the
      ones [except Exception] catches.  [print], [close] and [dispose] are
      recorded as effects and do not fail. *)

From Stdlib Require Import ZArith Ascii String List DecimalString.
From stdpp Require Import base strings gmap.

Local Open Scope Z_scope.

(** ** Python strings *)

Module PyStr.

(** [str.isspace] on one character, for code points below 256: the ASCII
    table of CPython (TAB, LF, VT, FF, CR, FS, GS, RS, US, SPACE) and the
    two Latin-1 characters with the White_Space property (NEL, NBSP). *)
Definition isspace (c : ascii) : bool :=
  let n := N_of_ascii c in
  ((9 <=? n) && (n <=? 13) || (28 <=? n) && (n <=? 32)
   || (n =? 133) || (n =? 160))%N.

Fixpoint all_space (s : string) : bool :=
  match s with
  | EmptyString => true
  | String c s' => isspace c && all_space s'
  end.

(** [str.lstrip()] *)
Fixpoint lstrip (s : string) : string :=
  match s with
  | EmptyString => EmptyString
  | String c s' => if isspace c then lstrip s' else s
  end.

(** [str.rstrip()] *)
Fixpoint rstrip (s : string) : string :=
  match s with
  | EmptyString => EmptyString
  | String c s' =>
      match rstrip s' with
      | EmptyString => if isspace c then EmptyString else String c EmptyString
      | r => String c r
      end
  end.

(** [str.strip()]: whitespace is removed at both ends. *)
Definition strip (s : string) : string := rstrip (lstrip s).

(** [s.startswith(c)] for a one-character prefix *)
Definition startswith_char (c : ascii) (s : string) : bool :=
  match s with
  | String d _ => if ascii_dec c d then true else false
  | EmptyString => false
  end.

Fixpoint last_char (s : string) : option ascii :=
  match s with
  | EmptyString => None
  | String c EmptyString => Some c
  | String _ s' => last_char s'
  end.

(** [s.endswith(c)] for a one-character suffix *)
Definition endswith_char (c : ascii) (s : string) : bool :=
  match last_char s with
  | Some d => if ascii_dec c d then true else false
  | None => false
  end.

(** The first character is whitespace. *)
Definition starts_space (s : string) : bool :=
  match s with
  | String c _ => isspace c
  | EmptyString => false
  end.

(** The last character is whitespace. *)
Definition ends_space (s : string) : bool :=
  match last_char s with
  | Some c => isspace c
  | None => false
  end.

(** [c in s] for a character [c] *)
Fixpoint has_char (c : ascii) (s : string) : bool :=
  match s with
  | EmptyString => false
  | String d s' => (if ascii_dec c d then true else false) || has_char c s'
  end.

(** Truth value of a [str]: only the empty string is false. *)
Definition truthy (s : string) : bool :=
  match s with
  | EmptyString => false
  | String _ _ => true
  end.

End PyStr.

(** [posixpath.join(a, b)] with two components: an absolute [b] replaces
    [a]; otherwise [b] is appended, after a separator unless [a] is empty or
    already ends with one. *)
Definition os_path_join (a b : string) : string :=
  if PyStr.startswith_char "/" b then b
  else if negb (PyStr.truthy a) || PyStr.endswith_char "/" a then a +:+ b
  else a +:+ "/" +:+ b.

(** ** Exceptions *)

Inductive exc_class :=
| AttributeError
| TypeError
| FileNotFoundError
| RuntimeError
| ConnectionError
| OtherError (name : string).

(** An exception object: its class and the text [str(e)]. *)
Record exn := Exn { exc_type : exc_class; exc_str : string }.

(** What [subprocess.run(..., check=True)] can raise: [CalledProcessError]
    with the attributes of the finished process, or whatever starting the
    process raised. *)
Inductive run_exc :=
| CalledProcessError (returncode : Z) (cmd : list string) (output stderr : string)
| SpawnError (e : exn).

(** ** External objects *)

Inductive cert_reqs := CERT_NONE | CERT_OPTIONAL | CERT_REQUIRED.
Inductive get_info_mode := NO_INFO | DSA | SCHEMA | ALL.

(** [ldap3.Tls], by the one argument it is built from here: with
    [validate] alone the constructor stores it and cannot fail.
    [ldap3.Server], by the attributes of the object the library builds;
    they need not be the keyword arguments of the call, as the constructor
    also reads the address. *)
Record Tls := { validate : cert_reqs }.
Record Server :=
  { host : string; port : Z; get_info : get_info_mode;
    use_ssl : bool; tls : option Tls }.

(** [ldap3.Connection]: an opaque handle and its [bound] attribute. *)
Record Connection := { ldap_handle : nat; bound : bool }.

(** [sqlalchemy] engine and connection objects, as opaque handles; both are
    true in a boolean context. *)
Record Engine := { engine_handle : nat }.
Record DbConn := { conn_handle : nat }.

(** [subprocess.CompletedProcess] *)
Record CompletedProcess :=
  { cp_returncode : Z; cp_stdout : string; cp_stderr : string }.

Record World :=
  { (** [os.path.exists] *)
    os_path_exists : string -> bool;
    (** starting the command and waiting for it: the finished process with
        its captured output, or the exception raised on starting it *)
    spawn : list string -> exn + CompletedProcess;
    (** [ldap3.Server(address, port=, get_info=, use_ssl=, tls=)] *)
    ldap3_Server : string -> Z -> get_info_mode -> bool -> option Tls
                   -> exn + Server;
    (** [ldap3.Connection(srv, user=, password=, auto_bind=)] *)
    ldap3_Connection : Server -> string -> string -> bool -> exn + Connection;
    (** [cx_Oracle.makedsn(host, port, service_name=)] *)
    cx_makedsn : string -> Z -> string -> exn + string;
    (** [sqlalchemy.create_engine(url, max_identifier_length=)] *)
    sqlalchemy_create_engine : string -> Z -> exn + Engine;
    (** [engine.connect()] *)
    engine_connect : Engine -> exn + DbConn }.

(** ** Effects *)

Inductive event :=
| EvSpawn (cmd : list string)
| EvStderr (text : string)
| EvAssign (var : string) (value : option string)
| EvLdapServer (address : string) (port_kw : Z) (get_info_kw : get_info_mode)
    (use_ssl_kw : bool) (tls_kw : option Tls)
| EvLdapConnect (srv : Server) (user password : string) (auto_bind : bool)
| EvMakeDsn (dbhost : string) (dbport : Z) (service_name : string)
| EvCreateEngine (url : string) (max_identifier_length : Z)
| EvEngineConnect (e : Engine)
| EvConnClose (c : DbConn)
| EvEngineDispose (e : Engine).

Inductive outcome (E A : Type) :=
| Returned (a : A)
| Raised (e : E)
| Exited (status : Z).
Arguments Returned {E A} a.
Arguments Raised {E A} e.
Arguments Exited {E A} status.

Definition M (E S A : Type) : Type := S -> outcome E A * S * list event.

Module PyM.

Definition ret {E S A} (a : A) : M E S A := fun s => (Returned a, s, []).

Definition bind {E S A B} (m : M E S A) (k : A -> M E S B) : M E S B :=
  fun s =>
    match m s with
    | (Returned a, s1, t1) =>
        let '(o, s2, t2) := k a s1 in (o, s2, t1 ++ t2)
    | (Raised e, s1, t1) => (Raised e, s1, t1)
    | (Exited n, s1, t1) => (Exited n, s1, t1)
    end.

(** [raise e] *)
Definition raise {E S A} (e : E) : M E S A := fun s => (Raised e, s, []).

(** [sys.exit(n)]: [SystemExit] is not an [Exception], no handler of
    these modules catches it. *)
Definition sys_exit {E S A} (n : Z) : M E S A := fun s => (Exited n, s, []).

Definition emit {E S} (ev : event) : M E S unit :=
  fun s => (Returned tt, s, [ev]).

Definition get {E S} : M E S S := fun s => (Returned s, s, []).

(** [try: body except ... as e: handler e]; the handler runs in the frame
    the body left. *)
Definition try_except {E1 E2 S A}
    (body : M E1 S A) (handler : E1 -> M E2 S A) : M E2 S A :=
  fun s =>
    match body s with
    | (Returned a, s1, t1) => (Returned a, s1, t1)
    | (Raised e, s1, t1) =>
        let '(o, s2, t2) := handler e s1 in (o, s2, t1 ++ t2)
    | (Exited n, s1, t1) => (Exited n, s1, t1)
    end.

(** Calling a function: the callee runs in a frame of its own. *)
Definition call {E S S' A} (callee : M E S' A) (init : S') : M E S A :=
  fun s => let '(o, _, t) := callee init in (o, s, t).

(** Lifting the result of an oracle. *)
Definition of_sum {E S A} (r : E + A) : M E S A :=
  match r with
  | inl e => raise e
  | inr a => ret a
  end.

End PyM.

Declare Scope py_scope.
Delimit Scope py_scope with py.
Notation "x <- c ;; k" := (PyM.bind c (fun x => k))
  (at level 100, c at next level, right associativity) : py_scope.
Notation "c ;;; k" := (PyM.bind c (fun _ => k))
  (at level 100, right associativity) : py_scope.

(** ** secret_retriever.py *)

Definition SECRETS_DIR : string := "/opt/credential_store".
Definition GPG_PASSPHRASE_FILE : string := os_path_join SECRETS_DIR ".gpg_passphrase".

Section SecretRetriever.

Variable W : World.

(** [subprocess.run(cmd, stdout=PIPE, stderr=PIPE, universal_newlines=True,
    check=True)] *)
Definition subprocess_run_check {S} (cmd : list string)
  : M run_exc S CompletedProcess :=
  (PyM.emit (EvSpawn cmd) ;;;
   match spawn W cmd with
   | inl e => PyM.raise (SpawnError e)
   | inr p =>
       if cp_returncode p =? 0 then PyM.ret p
       else PyM.raise (CalledProcessError (cp_returncode p) cmd
                         (cp_stdout p) (cp_stderr p))
   end)%py.

Definition gpg_cmd (enc_file : string) : list string :=
  ["gpg"; "--batch"; "--quiet"; "--yes";
   "--passphrase-file"; GPG_PASSPHRASE_FILE;
   "--decrypt"; enc_file].

Definition get_password (secret_name : string) : M exn unit string :=
  let enc_file := os_path_join SECRETS_DIR (secret_name +:+ "_secret.txt.gpg") in
  if negb (os_path_exists W enc_file) then
    PyM.raise (Exn FileNotFoundError
                 ("Encrypted secret for '" +:+ secret_name +:+ "' not found."))
  else
    let cmd := gpg_cmd enc_file in
    PyM.try_except
      (result <- subprocess_run_check cmd ;;
       PyM.ret (PyStr.strip (cp_stdout result)))%py
      (fun e =>
         match e with
         | CalledProcessError _ _ _ stderr =>
             PyM.raise (Exn RuntimeError
                          ("GPG decryption failed for '" +:+ secret_name
                           +:+ "': " +:+ stderr))
         | SpawnError (Exn FileNotFoundError _) =>
             PyM.raise (Exn RuntimeError
                          "gpg command not found. Is GnuPG installed?")
         | SpawnError e' => PyM.raise e'
         end).

End SecretRetriever.

(** The path [get_password] tests and hands to [gpg]. *)
Definition enc_file_of (secret_name : string) : string :=
  os_path_join SECRETS_DIR (secret_name +:+ "_secret.txt.gpg").

(** The same path in the words of the file-system layout: under the secrets
    directory, unless the name is absolute. *)
Definition checked_file (secret_name : string) : string :=
  if PyStr.startswith_char "/" secret_name
  then secret_name +:+ "_secret.txt.gpg"
  else SECRETS_DIR +:+ "/" +:+ secret_name +:+ "_secret.txt.gpg".

(** ** Module objects *)

(** The values a name of a module is bound to: a string constant, a
    function from a secret name to a secret, an imported module. *)
Inductive pyval :=
| PStr (s : string)
| PFun (f : string -> M exn unit string)
| PModule (name : string).

Definition type_name (v : pyval) : string :=
  match v with
  | PStr _ => "str"
  | PFun _ => "function"
  | PModule _ => "module"
  end.

(** A module object: its name and the names it binds. *)
Record module := { mod_name : string; mod_dict : gmap string pyval }.

(** [m.attr] *)
Definition getattr {S} (m : module) (attr : string) : M exn S pyval :=
  match mod_dict m !! attr with
  | Some v => PyM.ret v
  | None =>
      PyM.raise (Exn AttributeError
                   ("module '" +:+ mod_name m +:+ "' has no attribute '"
                    +:+ attr +:+ "'"))
  end.

(** [v(arg)] *)
Definition call_value {S} (v : pyval) (arg : string) : M exn S string :=
  match v with
  | PFun f => PyM.call (f arg) tt
  | _ =>
      PyM.raise (Exn TypeError
                   ("'" +:+ type_name v +:+ "' object is not callable"))
  end.

(** The module that [secret_retriever.py] defines: its two imports, its two
    constants and its one function. *)
Definition secret_retriever (W : World) : module :=
  {| mod_name := "secret_retriever";
     mod_dict :=
       list_to_map
         [("os", PModule "os");
          ("subprocess", PModule "subprocess");
          ("SECRETS_DIR", PStr SECRETS_DIR);
          ("GPG_PASSPHRASE_FILE", PStr GPG_PASSPHRASE_FILE);
          ("get_password", PFun (get_password W))] |}.

(** A module object with one more name bound, as a test double or a later
    version of the module would have it. *)
Definition with_attr (m : module) (attr : string) (v : pyval) : module :=
  {| mod_name := mod_name m; mod_dict := <[attr := v]> (mod_dict m) |}.

(** ** connection_helpers.py

    The module text sits between two lines of backquotes in the source
    file; they are not part of the program and are left out.  The module
    object bound to the name [secret_retriever] is a parameter of both
    builders: [import secret_retriever] takes whatever module of that name
    is first on the path, and the attribute [get_secret] is looked up in it
    at each call. *)

(** [print(text, file=sys.stderr)]: one call, whatever the number of lines
    of the text. *)
Definition print_stderr {E S} (text : string) : M E S unit :=
  PyM.emit (EvStderr text).

(** *** create_ldap_connection *)

(** The credential variables of [create_ldap_connection]. *)
Record ldap_frame := { oud_user : option string; oud_pswd : option string }.

Definition ldap_frame0 : ldap_frame := {| oud_user := None; oud_pswd := None |}.

(** Assignments to a credential variable change the frame and are part of
    the trace, so that their place among the effects can be stated. *)
Definition assign_oud_user {E} (v : option string) : M E ldap_frame unit :=
  fun fr => (Returned tt, {| oud_user := v; oud_pswd := oud_pswd fr |},
             [EvAssign "oud_user" v]).

Definition assign_oud_pswd {E} (v : option string) : M E ldap_frame unit :=
  fun fr => (Returned tt, {| oud_user := oud_user fr; oud_pswd := v |},
             [EvAssign "oud_pswd" v]).

(** [Connection(srv, user=, password=, auto_bind=)] *)
Definition new_Connection {S} (W : World)
    (srv : Server) (user password : string) (auto_bind : bool)
  : M exn S Connection :=
  (PyM.emit (EvLdapConnect srv user password auto_bind) ;;;
   PyM.of_sum (ldap3_Connection W srv user password auto_bind))%py.

(** [Server(address, port=, get_info=, use_ssl=, tls=)] *)
Definition new_Server {S} (W : World)
    (address : string) (port_kw : Z) (get_info_kw : get_info_mode)
    (use_ssl_kw : bool) (tls_kw : option Tls)
  : M exn S Server :=
  (PyM.emit (EvLdapServer address port_kw get_info_kw use_ssl_kw tls_kw) ;;;
   PyM.of_sum (ldap3_Server W address port_kw get_info_kw use_ssl_kw tls_kw))%py.

Definition ldap_except_handler {A} (e : exn) : M exn ldap_frame A :=
  (print_stderr ("Error creating LDAP connection: " +:+ exc_str e) ;;;
   PyM.sys_exit 1)%py.

Definition create_ldap_connection (W : World) (secret_retriever : module)
    (ldap_server user_secret pswd_secret : string)
  : M exn ldap_frame Connection :=
  (assign_oud_user None ;;;
   assign_oud_pswd None ;;;
   PyM.try_except
     (get_secret <- getattr secret_retriever "get_secret" ;;
      u <- call_value get_secret user_secret ;;
      assign_oud_user (Some u) ;;;
      get_secret <- getattr secret_retriever "get_secret" ;;
      p <- call_value get_secret pswd_secret ;;
      assign_oud_pswd (Some p) ;;;
      let tls := {| validate := CERT_NONE |} in
      srv <- new_Server W ldap_server 636 ALL true (Some tls) ;;
      oud <- new_Connection W srv u p true ;;
      assign_oud_user None ;;;
      assign_oud_pswd None ;;;
      if negb (bound oud) then
        PyM.raise (Exn ConnectionError
                     ("Error: cannot bind to " +:+ ldap_server))
      else PyM.ret oud)
     ldap_except_handler)%py.

(** *** create_db_connection *)

(** The local variables of [create_db_connection] its handler reads, and
    the credential variables. *)
Record db_frame :=
  { db_user : option string; db_pswd : option string;
    engine : option Engine; conn : option DbConn }.

Definition db_frame0 : db_frame :=
  {| db_user := None; db_pswd := None; engine := None; conn := None |}.

Definition assign_db_user {E} (v : option string) : M E db_frame unit :=
  fun fr => (Returned tt,
             {| db_user := v; db_pswd := db_pswd fr;
                engine := engine fr; conn := conn fr |},
             [EvAssign "db_user" v]).

Definition assign_db_pswd {E} (v : option string) : M E db_frame unit :=
  fun fr => (Returned tt,
             {| db_user := db_user fr; db_pswd := v;
                engine := engine fr; conn := conn fr |},
             [EvAssign "db_pswd" v]).

Definition assign_engine {E} (v : option Engine) : M E db_frame unit :=
  fun fr => (Returned tt,
             {| db_user := db_user fr; db_pswd := db_pswd fr;
                engine := v; conn := conn fr |}, []).

Definition assign_conn {E} (v : option DbConn) : M E db_frame unit :=
  fun fr => (Returned tt,
             {| db_user := db_user fr; db_pswd := db_pswd fr;
                engine := engine fr; conn := v |}, []).

(** [cx.makedsn(dbhost, dbport, service_name=dbsid)] *)
Definition makedsn {S} (W : World) (dbhost : string) (dbport : Z) (dbsid : string)
  : M exn S string :=
  (PyM.emit (EvMakeDsn dbhost dbport dbsid) ;;;
   PyM.of_sum (cx_makedsn W dbhost dbport dbsid))%py.

(** [sqlalchemy.create_engine(url, max_identifier_length=n)] *)
Definition create_engine {S} (W : World) (url : string) (n : Z) : M exn S Engine :=
  (PyM.emit (EvCreateEngine url n) ;;;
   PyM.of_sum (sqlalchemy_create_engine W url n))%py.

(** [e.connect()] *)
Definition connect {S} (W : World) (e : Engine) : M exn S DbConn :=
  (PyM.emit (EvEngineConnect e) ;;;
   PyM.of_sum (engine_connect W e))%py.

(** What [create_db_connection] returns: the engine, or the pair. *)
Inductive db_result :=
| EngineOnly (e : Engine)
| EngineAndConn (e : Engine) (c : DbConn).

(** The connect string, an f-string over the two credentials and the DSN. *)
Definition connect_string (db_user db_pswd datasourcename : string) : string :=
  "oracle+cx_oracle://" +:+ db_user +:+ ":" +:+ db_pswd +:+ "@" +:+ datasourcename.

Definition db_except_handler {A} (e : exn) : M exn db_frame A :=
  (print_stderr ("Error creating database connection: " +:+ exc_str e) ;;;
   fr <- PyM.get ;;
   match conn fr with
   | Some c => PyM.emit (EvConnClose c)
   | None => PyM.ret tt
   end ;;;
   match engine fr with
   | Some en => PyM.emit (EvEngineDispose en)
   | None => PyM.ret tt
   end ;;;
   PyM.sys_exit 1)%py.

Definition create_db_connection (W : World) (secret_retriever : module)
    (dbhost : string) (dbport : Z) (dbsid user_secret pswd_secret : string)
    (engine_only : bool)
  : M exn db_frame db_result :=
  (assign_db_user None ;;;
   assign_db_pswd None ;;;
   assign_engine None ;;;
   assign_conn None ;;;
   PyM.try_except
     (get_secret <- getattr secret_retriever "get_secret" ;;
      u <- call_value get_secret user_secret ;;
      assign_db_user (Some u) ;;;
      if negb (PyStr.truthy u) then
        PyM.raise (Exn RuntimeError
                     ("Retrieved empty username secret for '" +:+ user_secret
                      +:+ "'"))
      else
      get_secret <- getattr secret_retriever "get_secret" ;;
      p <- call_value get_secret pswd_secret ;;
      assign_db_pswd (Some p) ;;;
      if negb (PyStr.truthy p) then
        PyM.raise (Exn RuntimeError
                     ("Retrieved empty password for '" +:+ pswd_secret +:+ "'"))
      else
      datasourcename <- makedsn W dbhost dbport dbsid ;;
      let connectstring := connect_string u p datasourcename in
      assign_db_user None ;;;
      assign_db_pswd None ;;;
      en <- create_engine W connectstring 128 ;;
      assign_engine (Some en) ;;;
      if engine_only then PyM.ret (EngineOnly en)
      else
        c <- connect W en ;;
        assign_conn (Some c) ;;;
        PyM.ret (EngineAndConn en c))
     db_except_handler)%py.

(** ** Traces *)

Definition is_spawn (ev : event) : bool :=
  match ev with
  | EvSpawn _ => true
  | _ => false
  end.

(** A retriever that only starts processes and comes back, with a value or
    an exception. *)
Definition plain_retriever (f : string -> M exn unit string) : Prop :=
  forall name,
    match f name tt with
    | (Exited _, _, _) => False
    | (_, _, t) => forallb is_spawn t = true
    end.

(** A module whose [get_secret], if it has one, is such a retriever. *)
Definition plain_module (m : module) : Prop :=
  forall f, mod_dict m !! "get_secret" = Some (PFun f) -> plain_retriever f.

Definition engine_eqb (a b : Engine) : bool :=
  Nat.eqb (engine_handle a) (engine_handle b).
Definition conn_eqb (a b : DbConn) : bool :=
  Nat.eqb (conn_handle a) (conn_handle b).

(** The engines and connections a trace leaves open, in the world [W]: an
    engine is open from the [create_engine] that built it to its [dispose],
    a connection from the [connect] that opened it to its [close]. *)
Fixpoint open_after (W : World) (t : list event)
    (engines : list Engine) (conns : list DbConn)
  : list Engine * list DbConn :=
  match t with
  | [] => (engines, conns)
  | EvCreateEngine url n :: t' =>
      match sqlalchemy_create_engine W url n with
      | inr e => open_after W t' (e :: engines) conns
      | inl _ => open_after W t' engines conns
      end
  | EvEngineConnect e :: t' =>
      match engine_connect W e with
      | inr c => open_after W t' engines (c :: conns)
      | inl _ => open_after W t' engines conns
      end
  | EvEngineDispose e :: t' =>
      open_after W t' (List.filter (fun x => negb (engine_eqb e x)) engines) conns
  | EvConnClose c :: t' =>
      open_after W t' engines (List.filter (fun x => negb (conn_eqb c x)) conns)
  | _ :: t' => open_after W t' engines conns
  end.

Definition leaked (W : World) (t : list event) : list Engine * list DbConn :=
  open_after W t [] [].

(** The trace of [create_ldap_connection] up to and including the call of
    [Server], when [get_secret] gave [u] with the effects [t1] and [p] with
    the effects [t2]. *)
Definition ldap_served (ldap_server u p : string) (t1 t2 : list event)
  : list event :=
  [EvAssign "oud_user" None; EvAssign "oud_pswd" None] ++ t1
  ++ [EvAssign "oud_user" (Some u)] ++ t2
  ++ [EvAssign "oud_pswd" (Some p);
      EvLdapServer ldap_server 636 ALL true (Some {| validate := CERT_NONE |})].

(** The same trace up to and including the bind attempt on the server
    object [srv] that call returned. *)
Definition ldap_prefix (ldap_server : string) (srv : Server) (u p : string)
    (t1 t2 : list event) : list event :=
  ldap_served ldap_server u p t1 t2 ++ [EvLdapConnect srv u p true].

(** The trace of [create_db_connection] up to the point where the connect
    string is composed. *)
Definition db_composed (dbhost : string) (dbport : Z) (dbsid u p : string)
    (t1 t2 : list event) : list event :=
  [EvAssign "db_user" None; EvAssign "db_pswd" None] ++ t1
  ++ [EvAssign "db_user" (Some u)] ++ t2
  ++ [EvAssign "db_pswd" (Some p); EvMakeDsn dbhost dbport dbsid].

(** The same trace up to and including the call of [create_engine]. *)
Definition db_prefix (dbhost : string) (dbport : Z) (dbsid u p dsn : string)
    (t1 t2 : list event) : list event :=
  db_composed dbhost dbport dbsid u p t1 t2
  ++ [EvAssign "db_user" None; EvAssign "db_pswd" None;
      EvCreateEngine (connect_string u p dsn) 128].

(** The frame of [create_db_connection] once the credentials are reset. *)
Definition db_frame_with (e : option Engine) (c : option DbConn) : db_frame :=
  {| db_user := None; db_pswd := None; engine := e; conn := c |}.

(** The texts a trace prints to stderr, one for each call of [print], in
    order. *)
Definition stderr_prints (t : list event) : list string :=
  List.flat_map (fun ev => match ev with EvStderr l => [l] | _ => [] end) t.

(** ** Example worlds *)

Module Worlds.

(** What [ldap3.Server] builds for an address that is a bare host name (no
    scheme, no colon, no slash at its end): the keyword arguments as they
    are. *)
Definition server_of_keywords (address : string) (port_kw : Z)
    (get_info_kw : get_info_mode) (use_ssl_kw : bool) (tls_kw : option Tls)
  : exn + Server :=
  inr {| host := address; port := port_kw; get_info := get_info_kw;
         use_ssl := use_ssl_kw; tls := tls_kw |}.

(** The server object for the bare host name [address] as
    [create_ldap_connection] asks for it. *)
Definition bare_host_server (address : string) : Server :=
  {| host := address; port := 636; get_info := ALL; use_ssl := true;
     tls := Some {| validate := CERT_NONE |} |}.

(** Nothing exists and every library call that leaves the process fails;
    the addresses are bare host names. *)
Definition barren : World :=
  {| os_path_exists := fun _ => false;
     spawn := fun _ => inl (Exn FileNotFoundError "[Errno 2] No such file or directory: 'gpg'");
     ldap3_Server := server_of_keywords;
     ldap3_Connection := fun _ _ _ _ => inl (Exn (OtherError "LDAPSocketOpenError") "unreachable");
     cx_makedsn := fun _ _ _ => inl (Exn TypeError "makedsn");
     sqlalchemy_create_engine := fun _ _ => inl (Exn (OtherError "ArgumentError") "create_engine");
     engine_connect := fun _ => inl (Exn (OtherError "DatabaseError") "connect") |}.

(** The one file [path] exists and [gpg] ends as [run] says. *)
Definition with_secret (path : string) (run : exn + CompletedProcess) : World :=
  {| os_path_exists := fun p => String.eqb p path;
     spawn := fun _ => run;
     ldap3_Server := ldap3_Server barren;
     ldap3_Connection := ldap3_Connection barren;
     cx_makedsn := cx_makedsn barren;
     sqlalchemy_create_engine := sqlalchemy_create_engine barren;
     engine_connect := engine_connect barren |}.

Definition gpg_prints (out : string) : exn + CompletedProcess :=
  inr {| cp_returncode := 0; cp_stdout := out; cp_stderr := "" |}.

Definition gpg_fails (rc : Z) (err : string) : exn + CompletedProcess :=
  inr {| cp_returncode := rc; cp_stdout := ""; cp_stderr := err |}.

Definition gpg_missing : exn + CompletedProcess :=
  inl (Exn FileNotFoundError "[Errno 2] No such file or directory: 'gpg'").

(** A line feed. *)
Definition LF : string := String "010" EmptyString.

(** The descriptor [cx_Oracle.makedsn] builds for a service name. *)
Definition oracle_dsn (dbhost : string) (dbport : Z) (service_name : string)
  : string :=
  "(DESCRIPTION=(ADDRESS=(PROTOCOL=TCP)(HOST=" +:+ dbhost +:+ ")(PORT="
  +:+ NilZero.string_of_int (Z.to_int dbport)
  +:+ "))(CONNECT_DATA=(SERVICE_NAME=" +:+ service_name +:+ ")))".

Definition user_file : string := "/opt/credential_store/u_secret.txt.gpg".
Definition pswd_file : string := "/opt/credential_store/p_secret.txt.gpg".

(** A host with the two secrets [u] and [p], which gpg decrypts to
    [user_out] and [pswd_out], and with a directory server and a
    database that answer as [ldap], [eng] and [con] say. *)
Definition lab (user_out pswd_out : string)
    (ldap : exn + Connection) (eng : exn + Engine) (con : exn + DbConn)
  : World :=
  {| os_path_exists := fun p => String.eqb p user_file || String.eqb p pswd_file;
     spawn := fun cmd =>
       if String.eqb (List.last cmd "") user_file then gpg_prints user_out
       else if String.eqb (List.last cmd "") pswd_file then gpg_prints pswd_out
       else gpg_fails 2 "gpg: decryption failed";
     ldap3_Server := server_of_keywords;
     ldap3_Connection := fun _ _ _ _ => ldap;
     cx_makedsn := fun h pt sid => inr (oracle_dsn h pt sid);
     sqlalchemy_create_engine := fun _ _ => eng;
     engine_connect := fun _ => con |}.

Definition ldap_bound : exn + Connection :=
  inr {| ldap_handle := 1; bound := true |}.
Definition ldap_unbound : exn + Connection :=
  inr {| ldap_handle := 1; bound := false |}.
Definition ldap_refuses : exn + Connection :=
  inl (Exn (OtherError "LDAPBindError") "automatic bind not successful - invalidCredentials").
Definition engine_ok : exn + Engine := inr {| engine_handle := 7 |}.
Definition conn_ok : exn + DbConn := inr {| conn_handle := 9 |}.
Definition conn_refused : exn + DbConn :=
  inl (Exn (OtherError "DatabaseError") "ORA-12541: TNS:no listener").

(** The usual host: [u] decrypts to [scott], [p] to [tiger]. *)
Definition scott_tiger (ldap : exn + Connection) (con : exn + DbConn) : World :=
  lab ("scott" +:+ LF) ("tiger" +:+ LF) ldap engine_ok con.

(** [secret_retriever] with [get_secret] bound to its retrieval function. *)
Definition retriever_with_get_secret (W : World) : module :=
  with_attr (secret_retriever W) "get_secret" (PFun (get_password W)).

End Worlds.

(** More hosts, for the failures of the libraries. *)
Module Faults.

(** gpg cannot be started, for a reason other than its absence. *)
Definition gpg_denied : exn + CompletedProcess :=
  inl (Exn (OtherError "PermissionError") "[Errno 13] Permission denied: 'gpg'").

(** [Worlds.scott_tiger] with a driver that rejects the port. *)
Definition dsn_rejected : World :=
  {| os_path_exists := os_path_exists (Worlds.scott_tiger Worlds.ldap_bound Worlds.conn_ok);
     spawn := spawn (Worlds.scott_tiger Worlds.ldap_bound Worlds.conn_ok);
     ldap3_Server := Worlds.server_of_keywords;
     ldap3_Connection := fun _ _ _ _ => Worlds.ldap_bound;
     cx_makedsn := fun _ _ _ => inl (Exn TypeError "an integer is required");
     sqlalchemy_create_engine := fun _ _ => Worlds.engine_ok;
     engine_connect := fun _ => Worlds.conn_ok |}.

Definition engine_rejected : exn + Engine :=
  inl (Exn (OtherError "NoSuchModuleError") "Can't load plugin: sqlalchemy.dialects:oracle.cx_oracle").

(** [u] and [p] decrypt to [scott] and [tiger]; no engine can be built. *)
Definition no_driver : World :=
  Worlds.lab ("scott" +:+ Worlds.LF) ("tiger" +:+ Worlds.LF)
    Worlds.ldap_bound engine_rejected Worlds.conn_ok.

(** [Worlds.scott_tiger] with the [ldap3.Server] that reads a port written
    in the address: in [host:389] the port after the colon replaces the
    keyword [port], and in [host:ldaps] it is no integer and the
    constructor raises. *)
Definition port_in_address : World :=
  {| os_path_exists := os_path_exists (Worlds.scott_tiger Worlds.ldap_bound Worlds.conn_ok);
     spawn := spawn (Worlds.scott_tiger Worlds.ldap_bound Worlds.conn_ok);
     ldap3_Server := fun address port_kw get_info_kw use_ssl_kw tls_kw =>
       if String.eqb address "dirsrv.example.org:389" then
         inr {| host := "dirsrv.example.org"; port := 389;
                get_info := get_info_kw; use_ssl := use_ssl_kw; tls := tls_kw |}
       else if String.eqb address "dirsrv.example.org:ldaps" then
         inl (Exn (OtherError "LDAPInvalidPortError") "port must be an integer")
       else Worlds.server_of_keywords address port_kw get_info_kw use_ssl_kw tls_kw;
     ldap3_Connection := fun _ _ _ _ => Worlds.ldap_bound;
     cx_makedsn := cx_makedsn (Worlds.scott_tiger Worlds.ldap_bound Worlds.conn_ok);
     sqlalchemy_create_engine := fun _ _ => Worlds.engine_ok;
     engine_connect := fun _ => Worlds.conn_ok |}.

(** Only the secret [u] is on the host. *)
Definition only_user : World :=
  Worlds.with_secret Worlds.user_file (Worlds.gpg_prints ("scott" +:+ Worlds.LF)).

End Faults.

Ltac py_unfold :=
  unfold create_ldap_connection, create_db_connection,
    ldap_except_handler, db_except_handler, getattr, call_value,
    new_Server, new_Connection, makedsn, create_engine, connect, print_stderr,
    assign_oud_user, assign_oud_pswd, assign_db_user, assign_db_pswd,
    assign_engine, assign_conn,
    PyM.try_except, PyM.bind, PyM.call, PyM.of_sum, PyM.emit, PyM.get,
    PyM.raise, PyM.ret, PyM.sys_exit.

Ltac trace_norm :=
  repeat first
    [ rewrite <- app_assoc | rewrite app_nil_r | progress cbn [app] ].

(** ** Facts about strings *)

Section StringFacts.

Import PyStr.

Lemma append_cons (c : ascii) (a b : string) :
  String c a +:+ b = String c (a +:+ b).
Proof. reflexivity. Qed.

Lemma lstrip_split (s : string) :
  exists l, s = l +:+ lstrip s /\ all_space l = true.
Proof.
  induction s as [|c s [l [Hs Hl]]]; simpl.
  - exists ""; split; reflexivity.
  - destruct (isspace c) eqn:Hc.
    + exists (String c l). rewrite append_cons, <- Hs. simpl.
      now rewrite Hc, Hl.
    + exists ""; split; reflexivity.
Qed.

Lemma lstrip_no_leading (s : string) : starts_space (lstrip s) = false.
Proof.
  induction s as [|c s IH]; simpl; [reflexivity|].
  destruct (isspace c) eqn:Hc; [exact IH | simpl; exact Hc].
Qed.

Lemma lstrip_id (s : string) : starts_space s = false -> lstrip s = s.
Proof. destruct s as [|c s]; simpl; [reflexivity | now intros ->]. Qed.

Lemma rstrip_split (s : string) :
  exists t, s = rstrip s +:+ t /\ all_space t = true.
Proof.
  induction s as [|c s [t [Hs Ht]]]; simpl.
  - exists ""; split; reflexivity.
  - destruct (rstrip s) as [|d r] eqn:Hr.
    + change ("" +:+ t) with t in Hs. subst t.
      destruct (isspace c) eqn:Hc.
      * exists (String c s). split; [reflexivity | simpl; now rewrite Hc, Ht].
      * exists s. split; [reflexivity | exact Ht].
    + exists t. rewrite append_cons, <- Hs. now split.
Qed.

Lemma rstrip_no_trailing (s : string) : ends_space (rstrip s) = false.
Proof.
  unfold ends_space.
  induction s as [|c s IH]; simpl; [reflexivity|].
  destruct (rstrip s) as [|d r] eqn:Hr.
  - destruct (isspace c) eqn:Hc; simpl; [reflexivity | exact Hc].
  - exact IH.
Qed.

Lemma rstrip_keeps_head (s : string) :
  starts_space s = false -> starts_space (rstrip s) = false.
Proof.
  destruct s as [|c s]; simpl; [reflexivity|]. intros Hc.
  destruct (rstrip s); [rewrite Hc|]; simpl; exact Hc.
Qed.

(** What [strip] is: the input without a whitespace prefix and a
    whitespace suffix, the middle untouched. *)
Lemma strip_spec (s : string) :
  exists l t,
    s = l +:+ strip s +:+ t
    /\ all_space l = true /\ all_space t = true
    /\ starts_space (strip s) = false /\ ends_space (strip s) = false.
Proof.
  destruct (lstrip_split s) as [l [Hl Hls]].
  destruct (rstrip_split (lstrip s)) as [t [Ht Hts]].
  exists l, t. unfold strip. repeat split; try assumption.
  - now rewrite <- Ht.
  - apply rstrip_keeps_head, lstrip_no_leading.
  - apply rstrip_no_trailing.
Qed.

Lemma os_path_join_relative (name : string) :
  startswith_char "/" name = false ->
  enc_file_of name = SECRETS_DIR +:+ "/" +:+ name +:+ "_secret.txt.gpg".
Proof.
  intros H. unfold enc_file_of, os_path_join.
  destruct name as [|c name]; [reflexivity|].
  rewrite append_cons. simpl in *. now rewrite H.
Qed.

Lemma os_path_join_absolute (name : string) :
  startswith_char "/" name = true ->
  enc_file_of name = name +:+ "_secret.txt.gpg".
Proof.
  intros H. unfold enc_file_of, os_path_join.
  destruct name as [|c name]; [discriminate|].
  rewrite append_cons. simpl in *. now rewrite H.
Qed.

End StringFacts.

(** ** Running [get_password] *)

Section RetrieverFacts.

Variable W : World.

Lemma get_password_absent (name : string) :
  os_path_exists W (enc_file_of name) = false ->
  get_password W name tt
  = (Raised (Exn FileNotFoundError
               ("Encrypted secret for '" +:+ name +:+ "' not found.")), tt, []).
Proof.
  intros H. unfold get_password. fold (enc_file_of name). now rewrite H.
Qed.

Lemma get_password_decrypted (name : string) (p : CompletedProcess) :
  os_path_exists W (enc_file_of name) = true ->
  spawn W (gpg_cmd (enc_file_of name)) = inr p ->
  cp_returncode p = 0 ->
  get_password W name tt
  = (Returned (PyStr.strip (cp_stdout p)), tt, [EvSpawn (gpg_cmd (enc_file_of name))]).
Proof.
  intros Hex Hrun Hrc. unfold get_password. fold (enc_file_of name).
  rewrite Hex. cbn [negb].
  unfold PyM.try_except, subprocess_run_check, PyM.bind, PyM.emit.
  rewrite Hrun, Hrc. reflexivity.
Qed.

Lemma get_password_nonzero (name : string) (p : CompletedProcess) :
  os_path_exists W (enc_file_of name) = true ->
  spawn W (gpg_cmd (enc_file_of name)) = inr p ->
  cp_returncode p <> 0 ->
  get_password W name tt
  = (Raised (Exn RuntimeError
               ("GPG decryption failed for '" +:+ name +:+ "': " +:+ cp_stderr p)),
     tt, [EvSpawn (gpg_cmd (enc_file_of name))]).
Proof.
  intros Hex Hrun Hrc. unfold get_password. fold (enc_file_of name).
  rewrite Hex. cbn [negb].
  unfold PyM.try_except, subprocess_run_check, PyM.bind, PyM.emit.
  rewrite Hrun. apply Z.eqb_neq in Hrc. rewrite Hrc. reflexivity.
Qed.

Lemma get_password_no_gpg (name msg : string) :
  os_path_exists W (enc_file_of name) = true ->
  spawn W (gpg_cmd (enc_file_of name)) = inl (Exn FileNotFoundError msg) ->
  get_password W name tt
  = (Raised (Exn RuntimeError "gpg command not found. Is GnuPG installed?"),
     tt, [EvSpawn (gpg_cmd (enc_file_of name))]).
Proof.
  intros Hex Hrun. unfold get_password. fold (enc_file_of name).
  rewrite Hex. cbn [negb].
  unfold PyM.try_except, subprocess_run_check, PyM.bind, PyM.emit.
  rewrite Hrun. reflexivity.
Qed.

End RetrieverFacts.

(** ** Claims about [get_password] *)

(** C2, as stated, fails for a secret name that starts with a slash:
    [os.path.join] drops the secrets directory, so the file
    [/opt/credential_store//x_secret.txt.gpg] is absent while
    [/x_secret.txt.gpg] is found and handed to gpg. *)
Lemma C2_absolute_name_counterexample :
  let W := Worlds.with_secret "/x_secret.txt.gpg" (Worlds.gpg_prints "alice") in
  os_path_exists W (SECRETS_DIR +:+ "/" +:+ "/x" +:+ "_secret.txt.gpg") = false
  /\ get_password W "/x" tt
     = (Returned "alice", tt,
        [EvSpawn ["gpg"; "--batch"; "--quiet"; "--yes"; "--passphrase-file";
                  "/opt/credential_store/.gpg_passphrase";
                  "--decrypt"; "/x_secret.txt.gpg"]]).
Proof. split; reflexivity. Qed.

(** C2 (amended): when the file [get_password] looks for is absent, that is
    [{secrets_dir}/{secret_name}_secret.txt.gpg] for a name that does not
    start with a slash and [{secret_name}_secret.txt.gpg] for one that does,
    the call raises FileNotFoundError with a message naming the secret and
    starts no process. *)
Theorem C2_missing_file_not_found (W : World) (secret_name : string) :
  os_path_exists W (checked_file secret_name) = false ->
  get_password W secret_name tt
  = (Raised (Exn FileNotFoundError
               ("Encrypted secret for '" +:+ secret_name +:+ "' not found.")),
     tt, []).
Proof.
  intros H. apply get_password_absent.
  unfold checked_file in H.
  destruct (PyStr.startswith_char "/" secret_name) eqn:Hs.
  - now rewrite os_path_join_absolute.
  - now rewrite os_path_join_relative.
Qed.

Lemma C2_missing_file_not_found_witness :
  get_password Worlds.barren "svc_user" tt
  = (Raised (Exn FileNotFoundError "Encrypted secret for 'svc_user' not found."),
     tt, []).
Proof.
  apply (C2_missing_file_not_found Worlds.barren "svc_user"). reflexivity.
Defined.

(** C3, as stated, fails when the output of gpg starts with whitespace:
    trimming only the end of [" alice\n"] leaves [" alice"], the call
    returns ["alice"]. *)
Lemma C3_leading_space_counterexample :
  let out := String " " (String "a" (String "l" (String "i" (String "c"
               (String "e" (String "010" EmptyString)))))) in
  let W := Worlds.with_secret "/opt/credential_store/svc_user_secret.txt.gpg"
             (Worlds.gpg_prints out) in
  get_password W "svc_user" tt
  = (Returned "alice", tt,
     [EvSpawn (gpg_cmd "/opt/credential_store/svc_user_secret.txt.gpg")])
  /\ PyStr.rstrip out = " alice"
  /\ PyStr.rstrip out <> "alice".
Proof.
  cbv zeta. split; [reflexivity|]. split; [reflexivity | discriminate].
Qed.

(** C3 (amended): after a successful decryption [get_password] returns the
    captured stdout with the whitespace at both ends removed and nothing
    else changed: stdout is a whitespace prefix, the result, a whitespace
    suffix; the result neither starts nor ends with whitespace; when stdout
    has no leading whitespace only the end is trimmed. *)
Theorem C3_returns_stripped_stdout
    (W : World) (secret_name : string) (p : CompletedProcess) :
  os_path_exists W (enc_file_of secret_name) = true ->
  spawn W (gpg_cmd (enc_file_of secret_name)) = inr p ->
  cp_returncode p = 0 ->
  exists secret,
    get_password W secret_name tt
    = (Returned secret, tt, [EvSpawn (gpg_cmd (enc_file_of secret_name))])
    /\ secret = PyStr.strip (cp_stdout p)
    /\ (exists l t, cp_stdout p = l +:+ secret +:+ t
                    /\ PyStr.all_space l = true /\ PyStr.all_space t = true)
    /\ PyStr.starts_space secret = false
    /\ PyStr.ends_space secret = false
    /\ (PyStr.starts_space (cp_stdout p) = false ->
        secret = PyStr.rstrip (cp_stdout p)).
Proof.
  intros Hex Hrun Hrc. exists (PyStr.strip (cp_stdout p)).
  destruct (strip_spec (cp_stdout p)) as [l [t [Heq [Hl [Ht [Hhd Htl]]]]]].
  split; [now apply get_password_decrypted|].
  split; [reflexivity|].
  split; [now exists l, t|].
  split; [exact Hhd|]. split; [exact Htl|].
  intros Hno. unfold PyStr.strip. now rewrite lstrip_id.
Qed.

(** The scenario of the specification: the secret [svc_user] decrypts to
    ["alice\n"], the call returns ["alice"]. *)
Lemma C3_returns_stripped_stdout_witness :
  let out := String "a" (String "l" (String "i" (String "c"
               (String "e" (String "010" EmptyString))))) in
  let W := Worlds.with_secret "/opt/credential_store/svc_user_secret.txt.gpg"
             (Worlds.gpg_prints out) in
  get_password W "svc_user" tt
  = (Returned "alice", tt,
     [EvSpawn (gpg_cmd "/opt/credential_store/svc_user_secret.txt.gpg")]).
Proof.
  cbv zeta.
  destruct (C3_returns_stripped_stdout
              (Worlds.with_secret "/opt/credential_store/svc_user_secret.txt.gpg"
                 (Worlds.gpg_prints
                    (String "a" (String "l" (String "i" (String "c"
                       (String "e" (String "010" EmptyString))))))))
              "svc_user" _ eq_refl eq_refl eq_refl) as [secret [Hrun [Hsec _]]].
  rewrite Hrun, Hsec. reflexivity.
Defined.

(** C4, as stated, fails on the error kind: a gpg that exits with status 2
    and a gpg that is not installed both make [get_password] raise the same
    class, RuntimeError. *)
Lemma C4_same_class_counterexample :
  let path := "/opt/credential_store/k_secret.txt.gpg" in
  let e1 := Exn RuntimeError "GPG decryption failed for 'k': bad key" in
  let e2 := Exn RuntimeError "gpg command not found. Is GnuPG installed?" in
  get_password (Worlds.with_secret path (Worlds.gpg_fails 2 "bad key")) "k" tt
  = (Raised e1, tt, [EvSpawn (gpg_cmd path)])
  /\ get_password (Worlds.with_secret path Worlds.gpg_missing) "k" tt
     = (Raised e2, tt, [EvSpawn (gpg_cmd path)])
  /\ exc_type e2 = exc_type e1.
Proof. cbv zeta. repeat split; reflexivity. Qed.

(** C4 (amended): when gpg runs and exits non-zero, [get_password] raises a
    RuntimeError whose message ends with the stderr text of gpg, unchanged;
    when gpg is not found on the path it raises a RuntimeError as well, with
    a fixed message; the two are told apart by their message only, which
    never coincide. *)
Theorem C4_tool_failures (W : World) (secret_name : string) :
  os_path_exists W (enc_file_of secret_name) = true ->
  (forall p, spawn W (gpg_cmd (enc_file_of secret_name)) = inr p ->
             cp_returncode p <> 0 ->
             get_password W secret_name tt
             = (Raised (Exn RuntimeError
                          ("GPG decryption failed for '" +:+ secret_name
                           +:+ "': " +:+ cp_stderr p)),
                tt, [EvSpawn (gpg_cmd (enc_file_of secret_name))]))
  /\ (forall msg, spawn W (gpg_cmd (enc_file_of secret_name))
                  = inl (Exn FileNotFoundError msg) ->
                  get_password W secret_name tt
                  = (Raised (Exn RuntimeError
                               "gpg command not found. Is GnuPG installed?"),
                     tt, [EvSpawn (gpg_cmd (enc_file_of secret_name))]))
  /\ (forall stderr,
         "GPG decryption failed for '" +:+ secret_name +:+ "': " +:+ stderr
         <> "gpg command not found. Is GnuPG installed?").
Proof.
  intros Hex. split; [|split].
  - intros p Hrun Hrc. now apply get_password_nonzero.
  - intros msg Hrun. now apply (get_password_no_gpg W secret_name msg).
  - intros stderr. discriminate.
Qed.

Lemma C4_tool_failures_witness :
  let path := "/opt/credential_store/k_secret.txt.gpg" in
  get_password (Worlds.with_secret path (Worlds.gpg_fails 2 "bad key")) "k" tt
  = (Raised (Exn RuntimeError "GPG decryption failed for 'k': bad key"), tt,
     [EvSpawn (gpg_cmd path)])
  /\ get_password (Worlds.with_secret path Worlds.gpg_missing) "k" tt
     = (Raised (Exn RuntimeError "gpg command not found. Is GnuPG installed?"),
        tt, [EvSpawn (gpg_cmd path)]).
Proof.
  cbv zeta. split.
  - apply (proj1 (C4_tool_failures
                    (Worlds.with_secret "/opt/credential_store/k_secret.txt.gpg"
                       (Worlds.gpg_fails 2 "bad key")) "k" eq_refl)
             {| cp_returncode := 2; cp_stdout := ""; cp_stderr := "bad key" |}
             eq_refl).
    discriminate.
  - apply (proj1 (proj2 (C4_tool_failures
                    (Worlds.with_secret "/opt/credential_store/k_secret.txt.gpg"
                       Worlds.gpg_missing) "k" eq_refl))
             "[Errno 2] No such file or directory: 'gpg'" eq_refl).
Defined.

(** ** Running the connection builders *)

Section BuilderFacts.

Variable W : World.
Variable sr : module.
Variable gs : string -> M exn unit string.
Hypothesis Hgs : mod_dict sr !! "get_secret" = Some (PFun gs).

Lemma ldap_run (ldap_server us ps u p : string) (t1 t2 : list event)
    (srv : Server) :
  gs us tt = (Returned u, tt, t1) ->
  gs ps tt = (Returned p, tt, t2) ->
  ldap3_Server W ldap_server 636 ALL true (Some {| validate := CERT_NONE |})
  = inr srv ->
  create_ldap_connection W sr ldap_server us ps ldap_frame0
  = match ldap3_Connection W srv u p true with
    | inl e =>
        (Exited 1, {| oud_user := Some u; oud_pswd := Some p |},
         ldap_prefix ldap_server srv u p t1 t2
         ++ [EvStderr ("Error creating LDAP connection: " +:+ exc_str e)])
    | inr oud =>
        if bound oud then
          (Returned oud, ldap_frame0,
           ldap_prefix ldap_server srv u p t1 t2
           ++ [EvAssign "oud_user" None; EvAssign "oud_pswd" None])
        else
          (Exited 1, ldap_frame0,
           ldap_prefix ldap_server srv u p t1 t2
           ++ [EvAssign "oud_user" None; EvAssign "oud_pswd" None;
               EvStderr ("Error creating LDAP connection: "
                         +:+ "Error: cannot bind to " +:+ ldap_server)])
    end.
Proof.
  intros Hu Hp Hsrv. py_unfold. rewrite Hgs. cbn. rewrite Hu. cbn.
  rewrite Hp. cbn. rewrite Hsrv. cbn.
  unfold ldap_prefix, ldap_served.
  destruct (ldap3_Connection W srv u p true) as [e|oud]; cbn.
  - trace_norm. reflexivity.
  - destruct (bound oud); cbn; trace_norm; reflexivity.
Qed.

(** The call of [Server] raises: no bind is attempted. *)
Lemma ldap_run_server_raises (ldap_server us ps u p : string)
    (t1 t2 : list event) (e : exn) :
  gs us tt = (Returned u, tt, t1) ->
  gs ps tt = (Returned p, tt, t2) ->
  ldap3_Server W ldap_server 636 ALL true (Some {| validate := CERT_NONE |})
  = inl e ->
  create_ldap_connection W sr ldap_server us ps ldap_frame0
  = (Exited 1, {| oud_user := Some u; oud_pswd := Some p |},
     ldap_served ldap_server u p t1 t2
     ++ [EvStderr ("Error creating LDAP connection: " +:+ exc_str e)]).
Proof.
  intros Hu Hp Hsrv. py_unfold. rewrite Hgs. cbn. rewrite Hu. cbn.
  rewrite Hp. cbn. rewrite Hsrv. cbn.
  unfold ldap_served. trace_norm. reflexivity.
Qed.

Lemma db_run (dbhost : string) (dbport : Z) (dbsid us ps u p dsn : string)
    (engine_only : bool) (t1 t2 : list event) :
  gs us tt = (Returned u, tt, t1) -> PyStr.truthy u = true ->
  gs ps tt = (Returned p, tt, t2) -> PyStr.truthy p = true ->
  cx_makedsn W dbhost dbport dbsid = inr dsn ->
  create_db_connection W sr dbhost dbport dbsid us ps engine_only db_frame0
  = let pre := db_prefix dbhost dbport dbsid u p dsn t1 t2 in
    match sqlalchemy_create_engine W (connect_string u p dsn) 128 with
    | inl ex =>
        (Exited 1, db_frame_with None None,
         pre ++ [EvStderr ("Error creating database connection: "
                           +:+ exc_str ex)])
    | inr en =>
        if engine_only then
          (Returned (EngineOnly en), db_frame_with (Some en) None, pre)
        else
          match engine_connect W en with
          | inl ex =>
              (Exited 1, db_frame_with (Some en) None,
               pre ++ [EvEngineConnect en;
                       EvStderr ("Error creating database connection: "
                                 +:+ exc_str ex);
                       EvEngineDispose en])
          | inr c =>
              (Returned (EngineAndConn en c),
               db_frame_with (Some en) (Some c),
               pre ++ [EvEngineConnect en])
          end
    end.
Proof.
  intros Hu Hut Hp Hpt Hdsn. py_unfold.
  rewrite Hgs. cbn. rewrite Hu. cbn. rewrite Hut. cbn.
  rewrite Hp. cbn. rewrite Hpt. cbn. rewrite Hdsn. cbn.
  unfold db_prefix, db_composed, db_frame_with.
  destruct (sqlalchemy_create_engine W (connect_string u p dsn) 128) as [ex|en]; cbn.
  - trace_norm. reflexivity.
  - destruct engine_only; cbn.
    + trace_norm. reflexivity.
    + destruct (engine_connect W en) as [ex|c]; cbn;
        trace_norm; reflexivity.
Qed.

End BuilderFacts.

Section BuilderFailures.

Variable W : World.
Variable sr : module.
Variable gs : string -> M exn unit string.
Hypothesis Hgs : mod_dict sr !! "get_secret" = Some (PFun gs).

Lemma db_run_empty_user (dbhost : string) (dbport : Z) (dbsid us ps : string)
    (engine_only : bool) (t1 : list event) :
  gs us tt = (Returned "", tt, t1) ->
  create_db_connection W sr dbhost dbport dbsid us ps engine_only db_frame0
  = (Exited 1,
     {| db_user := Some ""; db_pswd := None; engine := None; conn := None |},
     [EvAssign "db_user" None; EvAssign "db_pswd" None] ++ t1
     ++ [EvAssign "db_user" (Some "");
         EvStderr ("Error creating database connection: "
                   +:+ "Retrieved empty username secret for '" +:+ us +:+ "'")]).
Proof.
  intros Hu. py_unfold. rewrite Hgs. cbn. rewrite Hu. cbn.
  trace_norm. reflexivity.
Qed.

Lemma db_run_empty_pswd (dbhost : string) (dbport : Z) (dbsid us ps u : string)
    (engine_only : bool) (t1 t2 : list event) :
  gs us tt = (Returned u, tt, t1) -> PyStr.truthy u = true ->
  gs ps tt = (Returned "", tt, t2) ->
  create_db_connection W sr dbhost dbport dbsid us ps engine_only db_frame0
  = (Exited 1,
     {| db_user := Some u; db_pswd := Some ""; engine := None; conn := None |},
     [EvAssign "db_user" None; EvAssign "db_pswd" None] ++ t1
     ++ [EvAssign "db_user" (Some u)] ++ t2
     ++ [EvAssign "db_pswd" (Some "");
         EvStderr ("Error creating database connection: "
                   +:+ "Retrieved empty password for '" +:+ ps +:+ "'")]).
Proof.
  intros Hu Hut Hp. py_unfold. rewrite Hgs. cbn. rewrite Hu. cbn.
  rewrite Hut. cbn. rewrite Hp. cbn. trace_norm. reflexivity.
Qed.

End BuilderFailures.

(** ** Plain retrievers and open handles *)

Section Handles.

Variable W : World.

Lemma get_password_plain : plain_retriever (get_password W).
Proof.
  intros name. unfold get_password.
  destruct (os_path_exists W _); cbn; [|reflexivity].
  unfold PyM.try_except, subprocess_run_check, PyM.bind, PyM.emit.
  destruct (spawn W _) as [[cls msg]|p]; cbn.
  - destruct cls; reflexivity.
  - destruct (cp_returncode p =? 0); reflexivity.
Qed.

Lemma secret_retriever_plain : plain_module (secret_retriever W).
Proof. intros f Hf. discriminate Hf. Qed.

Lemma retriever_with_get_secret_plain :
  plain_module (Worlds.retriever_with_get_secret W).
Proof.
  intros f Hf. unfold Worlds.retriever_with_get_secret, with_attr in Hf.
  cbn [mod_dict] in Hf. rewrite lookup_insert_eq in Hf.
  injection Hf as <-. apply get_password_plain.
Qed.

Lemma open_after_spawn (t1 t : list event) es cs :
  forallb is_spawn t1 = true ->
  open_after W (t1 ++ t) es cs = open_after W t es cs.
Proof.
  induction t1 as [|ev t1 IH]; cbn [app forallb]; [reflexivity|].
  intros H. apply andb_prop in H as [Hev Ht].
  destruct ev; try discriminate. cbn [open_after]. now apply IH.
Qed.

Lemma engine_eqb_refl (e : Engine) : engine_eqb e e = true.
Proof. apply Nat.eqb_refl. Qed.

Lemma spawn_only_In (t : list event) (ev : event) :
  forallb is_spawn t = true -> In ev t -> is_spawn ev = true.
Proof. intros H Hin. rewrite forallb_forall in H. now apply H. Qed.

Lemma spawn_only_no_connect (t : list event) (e : Engine) :
  forallb is_spawn t = true -> ~ In (EvEngineConnect e) t.
Proof. intros H Hin. now apply (spawn_only_In _ _ H) in Hin. Qed.

Ltac leak_leaf :=
  repeat split; try reflexivity;
  unfold leaked; trace_norm; cbn [app open_after];
  repeat (rewrite open_after_spawn by assumption; cbn [app open_after]);
  repeat match goal with
         | H : _ = inl _ |- _ => rewrite H
         | H : _ = inr _ |- _ => rewrite H
         end;
  cbn; rewrite ?engine_eqb_refl; try reflexivity.

(** No run of [create_db_connection] ends with an exception, and a run
    that leaves the process does so with status 1 and nothing open. *)
Lemma db_exits_clean (sr : module)
    (dbhost : string) (dbport : Z) (dbsid us ps : string) (engine_only : bool) :
  plain_module sr ->
  match create_db_connection W sr dbhost dbport dbsid us ps engine_only db_frame0 with
  | (Returned _, _, _) => True
  | (Raised _, _, _) => False
  | (Exited n, _, t) => n = 1 /\ leaked W t = ([], [])
  end.
Proof.
  intros Hplain. py_unfold. unfold plain_module, plain_retriever in Hplain.
  destruct (mod_dict sr !! "get_secret") as [[s|f|m]|] eqn:Hl; cbn;
    try (leak_leaf; fail).
  pose proof (Hplain f eq_refl us) as Hu.
  destruct (f us tt) as [[[u|e|n] []] t1]; cbn in *;
    try (leak_leaf; fail); try contradiction.
  destruct (PyStr.truthy u); cbn; try (leak_leaf; fail).
  pose proof (Hplain f eq_refl ps) as Hp.
  destruct (f ps tt) as [[[p|e|n] []] t2]; cbn in *;
    try (leak_leaf; fail); try contradiction.
  destruct (PyStr.truthy p); cbn; try (leak_leaf; fail).
  destruct (cx_makedsn W dbhost dbport dbsid) as [e|dsn] eqn:Hdsn; cbn;
    try (leak_leaf; fail).
  destruct (sqlalchemy_create_engine W (connect_string u p dsn) 128)
    as [e|en] eqn:Hen; cbn; try (leak_leaf; fail).
  destruct engine_only; cbn; [exact I|].
  destruct (engine_connect W en) as [e|c] eqn:Hc; cbn; [|exact I].
  leak_leaf.
Qed.

(** A run of [create_db_connection] that returns went through every step. *)
Lemma db_returned_inv (sr : module)
    (dbhost : string) (dbport : Z) (dbsid us ps : string) (engine_only : bool)
    (v : db_result) (fr : db_frame) (t : list event) :
  plain_module sr ->
  create_db_connection W sr dbhost dbport dbsid us ps engine_only db_frame0
  = (Returned v, fr, t) ->
  exists u p dsn en t1 t2,
    forallb is_spawn t1 = true /\ forallb is_spawn t2 = true
    /\ cx_makedsn W dbhost dbport dbsid = inr dsn
    /\ sqlalchemy_create_engine W (connect_string u p dsn) 128 = inr en
    /\ (if engine_only then
          v = EngineOnly en /\ fr = db_frame_with (Some en) None
          /\ t = db_prefix dbhost dbport dbsid u p dsn t1 t2
        else
          exists c, engine_connect W en = inr c
                    /\ v = EngineAndConn en c
                    /\ fr = db_frame_with (Some en) (Some c)
                    /\ t = db_prefix dbhost dbport dbsid u p dsn t1 t2
                           ++ [EvEngineConnect en]).
Proof.
  intros Hplain. py_unfold. unfold plain_module, plain_retriever in Hplain.
  destruct (mod_dict sr !! "get_secret") as [[s|f|m]|] eqn:Hl; cbn;
    try discriminate.
  pose proof (Hplain f eq_refl us) as Hu.
  destruct (f us tt) as [[[u|e|n] []] t1]; cbn in *;
    try discriminate; try contradiction.
  destruct (PyStr.truthy u); cbn; try discriminate.
  pose proof (Hplain f eq_refl ps) as Hp.
  destruct (f ps tt) as [[[p|e|n] []] t2]; cbn in *;
    try discriminate; try contradiction.
  destruct (PyStr.truthy p); cbn; try discriminate.
  destruct (cx_makedsn W dbhost dbport dbsid) as [e|dsn] eqn:Hdsn; cbn;
    try discriminate.
  destruct (sqlalchemy_create_engine W (connect_string u p dsn) 128)
    as [e|en] eqn:Hen; cbn; try discriminate.
  destruct engine_only; cbn.
  - intros Hrun. injection Hrun as <- <- <-.
    exists u, p, dsn, en, t1, t2. repeat split; try assumption.
    unfold db_prefix, db_composed. trace_norm. reflexivity.
  - destruct (engine_connect W en) as [e|c] eqn:Hc; cbn; try discriminate.
    intros Hrun. injection Hrun as <- <- <-.
    exists u, p, dsn, en, t1, t2. repeat split; try assumption.
    exists c. split; [exact Hc|]. split; [reflexivity|]. split; [reflexivity|].
    unfold db_prefix, db_composed. trace_norm. reflexivity.
Qed.

Lemma db_prefix_no_connect (dbhost : string) (dbport : Z)
    (dbsid u p dsn : string) (t1 t2 : list event) (e : Engine) :
  forallb is_spawn t1 = true -> forallb is_spawn t2 = true ->
  ~ In (EvEngineConnect e) (db_prefix dbhost dbport dbsid u p dsn t1 t2).
Proof.
  intros H1 H2. unfold db_prefix, db_composed.
  rewrite !in_app_iff. cbn [In].
  pose proof (spawn_only_no_connect t1 e H1).
  pose proof (spawn_only_no_connect t2 e H2).
  intuition discriminate.
Qed.

End Handles.

(** ** Claims about the connection builders *)

(** C1: [secret_retriever.py] binds [get_password] and no [get_secret], so
    the first statement of the try block of either builder raises
    AttributeError; the handler prints one line to stderr and leaves the
    process with status 1.  In every world and for all arguments neither
    builder starts gpg, reaches a library call, or returns. *)
Theorem C1_builders_exit_on_missing_get_secret (W : World) :
  mod_dict (secret_retriever W) !! "get_secret" = None
  /\ mod_dict (secret_retriever W) !! "get_password" = Some (PFun (get_password W))
  /\ (forall fr : ldap_frame,
         getattr (secret_retriever W) "get_secret" fr
         = (Raised (Exn AttributeError
                      "module 'secret_retriever' has no attribute 'get_secret'"),
            fr, []))
  /\ (forall ldap_server user_secret pswd_secret,
         create_ldap_connection W (secret_retriever W)
           ldap_server user_secret pswd_secret ldap_frame0
         = (Exited 1, ldap_frame0,
            [EvAssign "oud_user" None; EvAssign "oud_pswd" None;
             EvStderr "Error creating LDAP connection: module 'secret_retriever' has no attribute 'get_secret'"]))
  /\ (forall dbhost dbport dbsid user_secret pswd_secret engine_only,
         create_db_connection W (secret_retriever W)
           dbhost dbport dbsid user_secret pswd_secret engine_only db_frame0
         = (Exited 1, db_frame0,
            [EvAssign "db_user" None; EvAssign "db_pswd" None;
             EvStderr "Error creating database connection: module 'secret_retriever' has no attribute 'get_secret'"])).
Proof. repeat split. Qed.

(** C5, as stated, fails in [create_ldap_connection] when the bind attempt
    raises: control goes from the [Connection] call to the handler, the two
    assignments of None are skipped, and the process ends with both
    credentials still in their variables. *)
Lemma C5_bind_raises_counterexample :
  let W := Worlds.scott_tiger Worlds.ldap_refuses Worlds.conn_ok in
  create_ldap_connection W (Worlds.retriever_with_get_secret W)
    "ldap.example.org" "u" "p" ldap_frame0
  = (Exited 1, {| oud_user := Some "scott"; oud_pswd := Some "tiger" |},
     [EvAssign "oud_user" None; EvAssign "oud_pswd" None;
      EvSpawn (gpg_cmd Worlds.user_file);
      EvAssign "oud_user" (Some "scott");
      EvSpawn (gpg_cmd Worlds.pswd_file);
      EvAssign "oud_pswd" (Some "tiger");
      EvLdapServer "ldap.example.org" 636 ALL true
        (Some {| validate := CERT_NONE |});
      EvLdapConnect (Worlds.bare_host_server "ldap.example.org")
        "scott" "tiger" true;
      EvStderr "Error creating LDAP connection: automatic bind not successful - invalidCredentials"]).
Proof. reflexivity. Qed.

(** C5 (amended): in [create_ldap_connection], when the [Connection] call
    returns, the two credential variables are set to None right after it,
    before the test of [bound], and stay so to the end, bound or not; in
    [create_db_connection], when the connect string is composed, they are
    set to None right after it, before [create_engine], and stay so
    whatever follows.  When the [Connection] call raises, the handler runs
    and the process ends with the credentials still in the variables. *)
Theorem C5_credentials_reset_after_use
    (W : World) (sr : module) (gs : string -> M exn unit string)
    (us ps u p : string) (t1 t2 : list event) :
  mod_dict sr !! "get_secret" = Some (PFun gs) ->
  gs us tt = (Returned u, tt, t1) ->
  gs ps tt = (Returned p, tt, t2) ->
  (forall ldap_server srv oud,
      ldap3_Server W ldap_server 636 ALL true (Some {| validate := CERT_NONE |})
      = inr srv ->
      ldap3_Connection W srv u p true = inr oud ->
      exists o t',
        create_ldap_connection W sr ldap_server us ps ldap_frame0
        = (o, {| oud_user := None; oud_pswd := None |},
           ldap_prefix ldap_server srv u p t1 t2
           ++ [EvAssign "oud_user" None; EvAssign "oud_pswd" None] ++ t'))
  /\ (forall ldap_server srv e,
         ldap3_Server W ldap_server 636 ALL true (Some {| validate := CERT_NONE |})
         = inr srv ->
         ldap3_Connection W srv u p true = inl e ->
         create_ldap_connection W sr ldap_server us ps ldap_frame0
         = (Exited 1, {| oud_user := Some u; oud_pswd := Some p |},
            ldap_prefix ldap_server srv u p t1 t2
            ++ [EvStderr ("Error creating LDAP connection: " +:+ exc_str e)]))
  /\ (forall dbhost dbport dbsid engine_only dsn,
         PyStr.truthy u = true -> PyStr.truthy p = true ->
         cx_makedsn W dbhost dbport dbsid = inr dsn ->
         exists o en c t',
           create_db_connection W sr dbhost dbport dbsid us ps engine_only db_frame0
           = (o, {| db_user := None; db_pswd := None; engine := en; conn := c |},
              db_composed dbhost dbport dbsid u p t1 t2
              ++ [EvAssign "db_user" None; EvAssign "db_pswd" None;
                  EvCreateEngine (connect_string u p dsn) 128] ++ t')).
Proof.
  intros Hgs Hu Hp. split; [|split].
  - intros ldap_server srv oud Hsrv Hconn.
    rewrite (ldap_run W sr gs Hgs ldap_server us ps u p t1 t2 srv Hu Hp Hsrv),
      Hconn.
    destruct (bound oud).
    + exists (Returned oud), []. now rewrite app_nil_r.
    + eexists _, [_]. reflexivity.
  - intros ldap_server srv e Hsrv Hconn.
    now rewrite (ldap_run W sr gs Hgs ldap_server us ps u p t1 t2 srv Hu Hp Hsrv),
      Hconn.
  - intros dbhost dbport dbsid engine_only dsn Hut Hpt Hdsn.
    rewrite (db_run W sr gs Hgs dbhost dbport dbsid us ps u p dsn
               engine_only t1 t2 Hu Hut Hp Hpt Hdsn).
    cbv zeta. unfold db_prefix, db_frame_with.
    destruct (sqlalchemy_create_engine W (connect_string u p dsn) 128) as [ex|en].
    + eexists _, None, None, [_]. rewrite <- app_assoc. reflexivity.
    + destruct engine_only.
      * eexists _, (Some en), None, []. now rewrite app_nil_r.
      * destruct (engine_connect W en) as [ex|c].
        -- eexists _, (Some en), None, [_; _; _]. rewrite <- app_assoc. reflexivity.
        -- eexists _, (Some en), (Some c), [_]. rewrite <- app_assoc. reflexivity.
Qed.

Lemma C5_credentials_reset_after_use_witness :
  let W := Worlds.scott_tiger Worlds.ldap_unbound Worlds.conn_refused in
  (exists o t',
      create_ldap_connection W (Worlds.retriever_with_get_secret W)
        "ldap.example.org" "u" "p" ldap_frame0
      = (o, {| oud_user := None; oud_pswd := None |},
         ldap_prefix "ldap.example.org"
           (Worlds.bare_host_server "ldap.example.org") "scott" "tiger"
           [EvSpawn (gpg_cmd Worlds.user_file)] [EvSpawn (gpg_cmd Worlds.pswd_file)]
         ++ [EvAssign "oud_user" None; EvAssign "oud_pswd" None] ++ t'))
  /\ (exists o en c t',
         create_db_connection W (Worlds.retriever_with_get_secret W)
           "dbhost" 1521 "ORCL" "u" "p" false db_frame0
         = (o, {| db_user := None; db_pswd := None; engine := en; conn := c |},
            db_composed "dbhost" 1521 "ORCL" "scott" "tiger"
              [EvSpawn (gpg_cmd Worlds.user_file)] [EvSpawn (gpg_cmd Worlds.pswd_file)]
            ++ [EvAssign "db_user" None; EvAssign "db_pswd" None;
                EvCreateEngine
                  (connect_string "scott" "tiger"
                     (Worlds.oracle_dsn "dbhost" 1521 "ORCL")) 128] ++ t')).
Proof.
  cbv zeta.
  pose proof (C5_credentials_reset_after_use
                (Worlds.scott_tiger Worlds.ldap_unbound Worlds.conn_refused)
                (Worlds.retriever_with_get_secret
                   (Worlds.scott_tiger Worlds.ldap_unbound Worlds.conn_refused))
                (get_password
                   (Worlds.scott_tiger Worlds.ldap_unbound Worlds.conn_refused))
                "u" "p" "scott" "tiger"
                [EvSpawn (gpg_cmd Worlds.user_file)]
                [EvSpawn (gpg_cmd Worlds.pswd_file)]
                eq_refl eq_refl eq_refl) as [Hldap [_ Hdb]].
  split.
  - exact (Hldap "ldap.example.org" (Worlds.bare_host_server "ldap.example.org")
             {| ldap_handle := 1; bound := false |} eq_refl eq_refl).
  - exact (Hdb "dbhost" 1521 "ORCL" false (Worlds.oracle_dsn "dbhost" 1521 "ORCL")
             eq_refl eq_refl eq_refl).
Defined.

(** C6: when [get_secret] returns the empty string for the username
    secret, [create_db_connection] raises a RuntimeError naming that secret,
    which its handler prints before leaving the process with status 1; the
    only effects are those of the retrieval, so no engine is built.  The
    password secret goes through the same test. *)
Theorem C6_empty_credential_exits
    (W : World) (sr : module) (gs : string -> M exn unit string)
    (dbhost : string) (dbport : Z) (dbsid us ps : string) (engine_only : bool) :
  mod_dict sr !! "get_secret" = Some (PFun gs) ->
  (forall t1,
      gs us tt = (Returned "", tt, t1) ->
      exists fr t,
        create_db_connection W sr dbhost dbport dbsid us ps engine_only db_frame0
        = (Exited 1, fr, t)
        /\ t = [EvAssign "db_user" None; EvAssign "db_pswd" None] ++ t1
               ++ [EvAssign "db_user" (Some "");
                   EvStderr ("Error creating database connection: "
                             +:+ "Retrieved empty username secret for '"
                             +:+ us +:+ "'")]
        /\ (forall url n, In (EvCreateEngine url n) t ->
                          In (EvCreateEngine url n) t1))
  /\ (forall u t1 t2,
         gs us tt = (Returned u, tt, t1) -> PyStr.truthy u = true ->
         gs ps tt = (Returned "", tt, t2) ->
         exists fr t,
           create_db_connection W sr dbhost dbport dbsid us ps engine_only db_frame0
           = (Exited 1, fr, t)
           /\ t = [EvAssign "db_user" None; EvAssign "db_pswd" None] ++ t1
                  ++ [EvAssign "db_user" (Some u)] ++ t2
                  ++ [EvAssign "db_pswd" (Some "");
                      EvStderr ("Error creating database connection: "
                                +:+ "Retrieved empty password for '"
                                +:+ ps +:+ "'")]
           /\ (forall url n, In (EvCreateEngine url n) t ->
                             In (EvCreateEngine url n) (t1 ++ t2))).
Proof.
  intros Hgs. split.
  - intros t1 Hu. eexists _, _. split; [|split].
    + exact (db_run_empty_user W sr gs Hgs dbhost dbport dbsid us ps
               engine_only t1 Hu).
    + reflexivity.
    + intros url n. rewrite !in_app_iff. cbn [In]. intuition discriminate.
  - intros u t1 t2 Hu Hut Hp. eexists _, _. split; [|split].
    + exact (db_run_empty_pswd W sr gs Hgs dbhost dbport dbsid us ps u
               engine_only t1 t2 Hu Hut Hp).
    + reflexivity.
    + intros url n. rewrite !in_app_iff. cbn [In]. intuition discriminate.
Qed.

(** The username secret decrypts to a single line feed, which [strip] turns
    into the empty string. *)
Lemma C6_empty_credential_exits_witness :
  let W := Worlds.lab Worlds.LF ("tiger" +:+ Worlds.LF)
             Worlds.ldap_bound Worlds.engine_ok Worlds.conn_ok in
  exists fr,
    create_db_connection W (Worlds.retriever_with_get_secret W)
      "dbhost" 1521 "ORCL" "u" "p" false db_frame0
    = (Exited 1, fr,
       [EvAssign "db_user" None; EvAssign "db_pswd" None;
        EvSpawn (gpg_cmd Worlds.user_file);
        EvAssign "db_user" (Some "");
        EvStderr "Error creating database connection: Retrieved empty username secret for 'u'"]).
Proof.
  cbv zeta.
  destruct (proj1 (C6_empty_credential_exits
                     (Worlds.lab Worlds.LF ("tiger" +:+ Worlds.LF)
                        Worlds.ldap_bound Worlds.engine_ok Worlds.conn_ok)
                     (Worlds.retriever_with_get_secret
                        (Worlds.lab Worlds.LF ("tiger" +:+ Worlds.LF)
                           Worlds.ldap_bound Worlds.engine_ok Worlds.conn_ok))
                     (get_password
                        (Worlds.lab Worlds.LF ("tiger" +:+ Worlds.LF)
                           Worlds.ldap_bound Worlds.engine_ok Worlds.conn_ok))
                     "dbhost" 1521 "ORCL" "u" "p" false eq_refl)
              [EvSpawn (gpg_cmd Worlds.user_file)] eq_refl)
    as [fr [t [Hrun [Ht _]]]].
  exists fr. rewrite Hrun, Ht. reflexivity.
Defined.

(** C7: a call of [create_db_connection] that returns with
    [engine_only=True] returns the engine that [create_engine] built and
    has not called [connect]; one that returns with [engine_only=False]
    returns that engine together with the connection its [connect] gave,
    and [connect] was called on no other engine. *)
Theorem C7_engine_only_selects_result
    (W : World) (sr : module)
    (dbhost : string) (dbport : Z) (dbsid us ps : string) (engine_only : bool)
    (v : db_result) (fr : db_frame) (t : list event) :
  plain_module sr ->
  create_db_connection W sr dbhost dbport dbsid us ps engine_only db_frame0
  = (Returned v, fr, t) ->
  exists url en,
    sqlalchemy_create_engine W url 128 = inr en
    /\ In (EvCreateEngine url 128) t
    /\ if engine_only then
         v = EngineOnly en /\ (forall e, ~ In (EvEngineConnect e) t)
       else
         exists c, engine_connect W en = inr c
                   /\ v = EngineAndConn en c
                   /\ In (EvEngineConnect en) t
                   /\ (forall e, In (EvEngineConnect e) t -> e = en).
Proof.
  intros Hplain Hrun.
  destruct (db_returned_inv W sr dbhost dbport dbsid us ps engine_only v fr t
              Hplain Hrun)
    as (u & p & dsn & en & t1 & t2 & H1 & H2 & Hdsn & Hen & Hres).
  exists (connect_string u p dsn), en. split; [exact Hen|].
  assert (Hpre : In (EvCreateEngine (connect_string u p dsn) 128)
                   (db_prefix dbhost dbport dbsid u p dsn t1 t2)).
  { unfold db_prefix. rewrite in_app_iff. right. cbn. tauto. }
  destruct engine_only.
  - destruct Hres as (-> & _ & ->). split; [exact Hpre|]. split; [reflexivity|].
    intros e. now apply db_prefix_no_connect.
  - destruct Hres as (c & Hc & -> & _ & ->).
    split; [rewrite in_app_iff; now left|].
    exists c. split; [exact Hc|]. split; [reflexivity|]. split.
    + rewrite in_app_iff. right. now left.
    + intros e He. rewrite in_app_iff in He. destruct He as [He|He].
      * now apply db_prefix_no_connect in He.
      * destruct He as [He|[]]. now injection He as <-.
Qed.

Lemma C7_engine_only_selects_result_witness :
  let W := Worlds.scott_tiger Worlds.ldap_bound Worlds.conn_ok in
  (exists t,
      create_db_connection W (Worlds.retriever_with_get_secret W)
        "dbhost" 1521 "ORCL" "u" "p" true db_frame0
      = (Returned (EngineOnly {| engine_handle := 7 |}),
         db_frame_with (Some {| engine_handle := 7 |}) None, t)
      /\ forall e, ~ In (EvEngineConnect e) t)
  /\ (exists t,
         create_db_connection W (Worlds.retriever_with_get_secret W)
           "dbhost" 1521 "ORCL" "u" "p" false db_frame0
         = (Returned (EngineAndConn {| engine_handle := 7 |} {| conn_handle := 9 |}),
            db_frame_with (Some {| engine_handle := 7 |})
              (Some {| conn_handle := 9 |}), t)
         /\ In (EvEngineConnect {| engine_handle := 7 |}) t).
Proof.
  cbv zeta. split.
  - eexists. split; [reflexivity|].
    destruct (C7_engine_only_selects_result
                (Worlds.scott_tiger Worlds.ldap_bound Worlds.conn_ok)
                (Worlds.retriever_with_get_secret
                   (Worlds.scott_tiger Worlds.ldap_bound Worlds.conn_ok))
                "dbhost" 1521 "ORCL" "u" "p" true _ _ _
                (retriever_with_get_secret_plain _) eq_refl)
      as (url & en & _ & _ & _ & Hno).
    exact Hno.
  - eexists. split; [reflexivity|].
    destruct (C7_engine_only_selects_result
                (Worlds.scott_tiger Worlds.ldap_bound Worlds.conn_ok)
                (Worlds.retriever_with_get_secret
                   (Worlds.scott_tiger Worlds.ldap_bound Worlds.conn_ok))
                "dbhost" 1521 "ORCL" "u" "p" false _ _ _
                (retriever_with_get_secret_plain _) eq_refl)
      as (url & en & _ & _ & c & Hc & Hv & Hin & _).
    injection Hv as <- _. exact Hin.
Defined.

(** C8: the handler of [create_db_connection] prints the exception, closes
    the connection if [conn] holds one, disposes of the engine if [engine]
    holds one, and leaves the process with status 1; no call of
    [create_db_connection] ends with an exception, and one that leaves the
    process does so with status 1 and with every engine it built disposed
    of and every connection it opened closed. *)
Theorem C8_failure_path_cleans_up
    (W : World) (sr : module)
    (dbhost : string) (dbport : Z) (dbsid us ps : string) (engine_only : bool) :
  plain_module sr ->
  (forall (ex : exn) (fr : db_frame),
      @db_except_handler db_result ex fr
      = (Exited 1, fr,
         [EvStderr ("Error creating database connection: " +:+ exc_str ex)]
         ++ match conn fr with Some c => [EvConnClose c] | None => [] end
         ++ match engine fr with Some en => [EvEngineDispose en] | None => [] end))
  /\ (forall o fr t,
         create_db_connection W sr dbhost dbport dbsid us ps engine_only db_frame0
         = (o, fr, t) ->
         (forall ex, o <> Raised ex)
         /\ (forall n, o = Exited n -> n = 1 /\ leaked W t = ([], []))).
Proof.
  intros Hplain. split.
  - intros ex fr. unfold db_except_handler. py_unfold.
    destruct (conn fr), (engine fr); reflexivity.
  - intros o fr t Hrun.
    pose proof (db_exits_clean W sr dbhost dbport dbsid us ps engine_only Hplain)
      as Hclean.
    rewrite Hrun in Hclean. destruct o as [v|ex|n].
    + split; [discriminate|]. intros n Hn. discriminate Hn.
    + contradiction.
    + split; [discriminate|]. intros m Hm. injection Hm as <-. exact Hclean.
Qed.

(** The database refuses the connection after the engine was built: the
    engine is disposed of, the process ends with status 1, nothing stays
    open. *)
Lemma C8_failure_path_cleans_up_witness :
  let W := Worlds.scott_tiger Worlds.ldap_bound Worlds.conn_refused in
  let run := create_db_connection W (Worlds.retriever_with_get_secret W)
               "dbhost" 1521 "ORCL" "u" "p" false db_frame0 in
  fst (fst run) = Exited 1
  /\ In (EvEngineDispose {| engine_handle := 7 |}) (snd run)
  /\ leaked W (snd run) = ([], []).
Proof.
  cbv zeta. split; [reflexivity|].
  split; [vm_compute; repeat (first [left; reflexivity | right])|].
  refine (proj2 (proj2 (proj2 (C8_failure_path_cleans_up
            (Worlds.scott_tiger Worlds.ldap_bound Worlds.conn_refused)
            (Worlds.retriever_with_get_secret
               (Worlds.scott_tiger Worlds.ldap_bound Worlds.conn_refused))
            "dbhost" 1521 "ORCL" "u" "p" false
            (retriever_with_get_secret_plain _))
          (Exited 1) _ _ _) 1 eq_refl)).
  reflexivity.
Defined.

(** C9, as stated, fails for a server address that carries a port:
    [create_ldap_connection] passes [port=636], but for the address
    [dirsrv.example.org:389] [ldap3.Server] takes the port after the colon,
    and the bind attempt is made on a server object with port 389. *)
Lemma C9_port_in_address_counterexample :
  let srv := {| host := "dirsrv.example.org"; port := 389; get_info := ALL;
                use_ssl := true; tls := Some {| validate := CERT_NONE |} |} in
  create_ldap_connection Faults.port_in_address
    (Worlds.retriever_with_get_secret Faults.port_in_address)
    "dirsrv.example.org:389" "u" "p" ldap_frame0
  = (Returned {| ldap_handle := 1; bound := true |}, ldap_frame0,
     [EvAssign "oud_user" None; EvAssign "oud_pswd" None;
      EvSpawn (gpg_cmd Worlds.user_file);
      EvAssign "oud_user" (Some "scott");
      EvSpawn (gpg_cmd Worlds.pswd_file);
      EvAssign "oud_pswd" (Some "tiger");
      EvLdapServer "dirsrv.example.org:389" 636 ALL true
        (Some {| validate := CERT_NONE |});
      EvLdapConnect srv "scott" "tiger" true;
      EvAssign "oud_user" None; EvAssign "oud_pswd" None])
  /\ port srv <> 636.
Proof. split; [reflexivity | discriminate]. Qed.

(** C9 (amended): whatever the server address, once both credentials are
    retrieved [create_ldap_connection] calls [Server] with that address,
    [port=636], [use_ssl=True] and a [Tls] with certificate validation off.
    When the call raises, the handler prints the message and the process
    ends with status 1 without a bind attempt.  When it returns, the bind
    attempt is made on the server object it returned; a connection that
    comes back unbound gives a ConnectionError whose message ends with the
    address passed in, printed by the handler before the process ends with
    status 1, and a bound one is returned. *)
Theorem C9_ldaps_descriptor_and_bind_check
    (W : World) (sr : module) (gs : string -> M exn unit string)
    (ldap_server us ps u p : string) (t1 t2 : list event) :
  mod_dict sr !! "get_secret" = Some (PFun gs) ->
  gs us tt = (Returned u, tt, t1) ->
  gs ps tt = (Returned p, tt, t2) ->
  let tls := {| validate := CERT_NONE |} in
  let called :=
    [EvAssign "oud_user" None; EvAssign "oud_pswd" None] ++ t1
    ++ [EvAssign "oud_user" (Some u)] ++ t2
    ++ [EvAssign "oud_pswd" (Some p);
        EvLdapServer ldap_server 636 ALL true (Some tls)] in
  (forall e,
      ldap3_Server W ldap_server 636 ALL true (Some tls) = inl e ->
      create_ldap_connection W sr ldap_server us ps ldap_frame0
      = (Exited 1, {| oud_user := Some u; oud_pswd := Some p |},
         called
         ++ [EvStderr ("Error creating LDAP connection: " +:+ exc_str e)]))
  /\ (forall srv,
         ldap3_Server W ldap_server 636 ALL true (Some tls) = inr srv ->
         exists o fr t',
           create_ldap_connection W sr ldap_server us ps ldap_frame0
           = (o, fr, called ++ [EvLdapConnect srv u p true] ++ t')
           /\ (forall oud,
                  ldap3_Connection W srv u p true = inr oud ->
                  bound oud = false ->
                  o = Exited 1
                  /\ t' = [EvAssign "oud_user" None; EvAssign "oud_pswd" None;
                           EvStderr ("Error creating LDAP connection: "
                                     +:+ "Error: cannot bind to "
                                     +:+ ldap_server)])
           /\ (forall oud,
                  ldap3_Connection W srv u p true = inr oud ->
                  bound oud = true ->
                  o = Returned oud)).
Proof.
  intros Hgs Hu Hp tls called. split.
  - intros e Hsrv.
    exact (ldap_run_server_raises W sr gs Hgs ldap_server us ps u p t1 t2 e
             Hu Hp Hsrv).
  - intros srv Hsrv.
    rewrite (ldap_run W sr gs Hgs ldap_server us ps u p t1 t2 srv Hu Hp Hsrv).
    unfold ldap_prefix. fold tls.
    change (ldap_served ldap_server u p t1 t2) with called.
    destruct (ldap3_Connection W srv u p true) as [e|oud].
    + eexists _, _, [_]. split; [trace_norm; reflexivity|].
      split; intros oud Houd; discriminate Houd.
    + destruct (bound oud) eqn:Hb.
      * eexists _, _, [_; _]. split; [trace_norm; reflexivity|].
        split; intros oud' Houd Hb'; injection Houd as <-;
          [congruence | reflexivity].
      * eexists _, _, [_; _; _]. split; [trace_norm; reflexivity|].
        split; intros oud' Houd Hb'; injection Houd as <-;
          [split; reflexivity | congruence].
Qed.

(** An unbound connection on a bare host name, and an address whose port
    is no integer. *)
Lemma C9_ldaps_descriptor_and_bind_check_witness :
  (let W := Worlds.scott_tiger Worlds.ldap_unbound Worlds.conn_ok in
   exists fr,
     create_ldap_connection W (Worlds.retriever_with_get_secret W)
       "ldap.example.org" "u" "p" ldap_frame0
     = (Exited 1, fr,
        [EvAssign "oud_user" None; EvAssign "oud_pswd" None;
         EvSpawn (gpg_cmd Worlds.user_file);
         EvAssign "oud_user" (Some "scott");
         EvSpawn (gpg_cmd Worlds.pswd_file);
         EvAssign "oud_pswd" (Some "tiger");
         EvLdapServer "ldap.example.org" 636 ALL true
           (Some {| validate := CERT_NONE |});
         EvLdapConnect
           {| host := "ldap.example.org"; port := 636; get_info := ALL;
              use_ssl := true; tls := Some {| validate := CERT_NONE |} |}
           "scott" "tiger" true;
         EvAssign "oud_user" None; EvAssign "oud_pswd" None;
         EvStderr "Error creating LDAP connection: Error: cannot bind to ldap.example.org"]))
  /\ create_ldap_connection Faults.port_in_address
       (Worlds.retriever_with_get_secret Faults.port_in_address)
       "dirsrv.example.org:ldaps" "u" "p" ldap_frame0
     = (Exited 1, {| oud_user := Some "scott"; oud_pswd := Some "tiger" |},
        [EvAssign "oud_user" None; EvAssign "oud_pswd" None;
         EvSpawn (gpg_cmd Worlds.user_file);
         EvAssign "oud_user" (Some "scott");
         EvSpawn (gpg_cmd Worlds.pswd_file);
         EvAssign "oud_pswd" (Some "tiger");
         EvLdapServer "dirsrv.example.org:ldaps" 636 ALL true
           (Some {| validate := CERT_NONE |});
         EvStderr "Error creating LDAP connection: port must be an integer"]).
Proof.
  split.
  - cbv zeta.
    destruct (proj2 (C9_ldaps_descriptor_and_bind_check
                (Worlds.scott_tiger Worlds.ldap_unbound Worlds.conn_ok)
                (Worlds.retriever_with_get_secret
                   (Worlds.scott_tiger Worlds.ldap_unbound Worlds.conn_ok))
                (get_password
                   (Worlds.scott_tiger Worlds.ldap_unbound Worlds.conn_ok))
                "ldap.example.org" "u" "p" "scott" "tiger"
                [EvSpawn (gpg_cmd Worlds.user_file)]
                [EvSpawn (gpg_cmd Worlds.pswd_file)]
                eq_refl eq_refl eq_refl)
              (Worlds.bare_host_server "ldap.example.org") eq_refl)
      as (o & fr & t' & Hrun & Hunbound & _).
    destruct (Hunbound {| ldap_handle := 1; bound := false |} eq_refl eq_refl)
      as [Ho Ht].
    exists fr. rewrite Hrun, Ho, Ht. reflexivity.
  - exact (proj1 (C9_ldaps_descriptor_and_bind_check Faults.port_in_address
                    (Worlds.retriever_with_get_secret Faults.port_in_address)
                    (get_password Faults.port_in_address)
                    "dirsrv.example.org:ldaps" "u" "p" "scott" "tiger"
                    [EvSpawn (gpg_cmd Worlds.user_file)]
                    [EvSpawn (gpg_cmd Worlds.pswd_file)]
                    eq_refl eq_refl eq_refl)
             (Exn (OtherError "LDAPInvalidPortError") "port must be an integer")
             eq_refl).
Defined.

(** C10: once both credentials are retrieved and the DSN is made from the
    host, the port and the service name, [create_db_connection] calls
    [create_engine] with the connect string
    [oracle+cx_oracle://{db_user}:{db_pswd}@{datasourcename}] and
    [max_identifier_length=128]. *)
Theorem C10_connect_string_and_identifier_length
    (W : World) (sr : module) (gs : string -> M exn unit string)
    (dbhost : string) (dbport : Z) (dbsid us ps u p dsn : string)
    (engine_only : bool) (t1 t2 : list event) :
  mod_dict sr !! "get_secret" = Some (PFun gs) ->
  gs us tt = (Returned u, tt, t1) -> PyStr.truthy u = true ->
  gs ps tt = (Returned p, tt, t2) -> PyStr.truthy p = true ->
  cx_makedsn W dbhost dbport dbsid = inr dsn ->
  exists o fr t',
    create_db_connection W sr dbhost dbport dbsid us ps engine_only db_frame0
    = (o, fr,
       [EvAssign "db_user" None; EvAssign "db_pswd" None] ++ t1
       ++ [EvAssign "db_user" (Some u)] ++ t2
       ++ [EvAssign "db_pswd" (Some p);
           EvMakeDsn dbhost dbport dbsid;
           EvAssign "db_user" None; EvAssign "db_pswd" None;
           EvCreateEngine
             ("oracle+cx_oracle://" +:+ u +:+ ":" +:+ p +:+ "@" +:+ dsn) 128]
       ++ t').
Proof.
  intros Hgs Hu Hut Hp Hpt Hdsn.
  rewrite (db_run W sr gs Hgs dbhost dbport dbsid us ps u p dsn
             engine_only t1 t2 Hu Hut Hp Hpt Hdsn).
  cbv zeta. unfold db_prefix, db_composed, connect_string.
  destruct (sqlalchemy_create_engine W _ 128) as [ex|en].
  - eexists _, _, [_]. trace_norm. reflexivity.
  - destruct engine_only.
    + eexists _, _, []. trace_norm. reflexivity.
    + destruct (engine_connect W en) as [ex|c].
      * eexists _, _, [_; _; _]. trace_norm. reflexivity.
      * eexists _, _, [_]. trace_norm. reflexivity.
Qed.

(** The scenario of the specification: host [dbhost], port 1521, service
    [ORCL], secrets [u] and [p] holding [scott] and [tiger]. *)
Lemma C10_connect_string_and_identifier_length_witness :
  let W := Worlds.scott_tiger Worlds.ldap_bound Worlds.conn_ok in
  exists o fr t',
    create_db_connection W (Worlds.retriever_with_get_secret W)
      "dbhost" 1521 "ORCL" "u" "p" false db_frame0
    = (o, fr,
       [EvAssign "db_user" None; EvAssign "db_pswd" None;
        EvSpawn (gpg_cmd Worlds.user_file);
        EvAssign "db_user" (Some "scott");
        EvSpawn (gpg_cmd Worlds.pswd_file);
        EvAssign "db_pswd" (Some "tiger");
        EvMakeDsn "dbhost" 1521 "ORCL";
        EvAssign "db_user" None; EvAssign "db_pswd" None;
        EvCreateEngine
          "oracle+cx_oracle://scott:tiger@(DESCRIPTION=(ADDRESS=(PROTOCOL=TCP)(HOST=dbhost)(PORT=1521))(CONNECT_DATA=(SERVICE_NAME=ORCL)))"
          128] ++ t').
Proof.
  cbv zeta.
  exact (C10_connect_string_and_identifier_length
           (Worlds.scott_tiger Worlds.ldap_bound Worlds.conn_ok)
           (Worlds.retriever_with_get_secret
              (Worlds.scott_tiger Worlds.ldap_bound Worlds.conn_ok))
           (get_password (Worlds.scott_tiger Worlds.ldap_bound Worlds.conn_ok))
           "dbhost" 1521 "ORCL" "u" "p" "scott" "tiger"
           (Worlds.oracle_dsn "dbhost" 1521 "ORCL") false
           [EvSpawn (gpg_cmd Worlds.user_file)]
           [EvSpawn (gpg_cmd Worlds.pswd_file)]
           eq_refl eq_refl eq_refl eq_refl eq_refl eq_refl).
Defined.

(** ** Further facts about strings and paths *)

Section MoreStringFacts.

Import PyStr.

Lemma append_length (a b : string) :
  String.length (a +:+ b) = (String.length a + String.length b)%nat.
Proof.
  induction a as [|c a IH]; [reflexivity|].
  rewrite append_cons. cbn [String.length]. now rewrite IH.
Qed.

Lemma append_assoc (a b c : string) : (a +:+ b) +:+ c = a +:+ b +:+ c.
Proof.
  induction a as [|x a IH]; [reflexivity|].
  rewrite !append_cons. now f_equal.
Qed.

Lemma append_cancel_r (s x y : string) : x +:+ s = y +:+ s -> x = y.
Proof.
  revert y. induction x as [|c x IH]; intros [|d y] H.
  - reflexivity.
  - exfalso. change ("" +:+ s) with s in H.
    apply (f_equal String.length) in H.
    rewrite append_cons in H. cbn [String.length] in H.
    rewrite append_length in H. lia.
  - exfalso. change ("" +:+ s) with s in H.
    apply (f_equal String.length) in H.
    rewrite append_cons in H. cbn [String.length] in H.
    rewrite append_length in H. lia.
  - rewrite !append_cons in H. injection H as -> H. f_equal. now apply IH.
Qed.

Lemma last_char_append (a b : string) :
  b <> "" -> last_char (a +:+ b) = last_char b.
Proof.
  intros Hb. induction a as [|c a IH]; [reflexivity|].
  rewrite append_cons. cbn [last_char]. rewrite IH.
  destruct (a +:+ b) eqn:Hab; [|reflexivity].
  destruct a; [|discriminate Hab]. now destruct b.
Qed.

Lemma has_char_append (c : ascii) (a b : string) :
  has_char c (a +:+ b) = has_char c a || has_char c b.
Proof.
  induction a as [|d a IH]; [reflexivity|].
  rewrite append_cons. cbn [has_char]. rewrite IH. now rewrite orb_assoc.
Qed.

Lemma no_slash_not_absolute (s : string) :
  has_char "/" s = false -> startswith_char "/" s = false.
Proof.
  destruct s as [|d s]; [reflexivity|]. cbn [has_char startswith_char].
  destruct (ascii_dec "/" d); [intros H; discriminate H | reflexivity].
Qed.

Lemma rstrip_id (s : string) : ends_space s = false -> rstrip s = s.
Proof.
  unfold ends_space. induction s as [|c s IH]; [reflexivity|].
  cbn [rstrip last_char]. destruct s as [|d s].
  - cbn. now intros ->.
  - intros H. now rewrite (IH H).
Qed.

Lemma lstrip_all_space (s : string) : all_space s = true -> lstrip s = "".
Proof.
  induction s as [|c s IH]; [reflexivity|]. cbn.
  destruct (isspace c); [exact IH | discriminate].
Qed.

Lemma strip_all_space (s : string) : all_space s = true -> strip s = "".
Proof. intros H. unfold strip. now rewrite lstrip_all_space. Qed.

End MoreStringFacts.

(** ** Further properties of [get_password] *)

(** X1: [get_password] starts gpg exactly once when the file it looks for
    exists and not at all when it does not, always with batch mode, the
    fixed passphrase file and that file as the target; it comes back with a
    value or an exception and never ends the process. *)
Theorem X1_get_password_starts_gpg_once (W : World) (secret_name : string) :
  (exists o,
      get_password W secret_name tt
      = (o, tt,
         if os_path_exists W (enc_file_of secret_name)
         then [EvSpawn (gpg_cmd (enc_file_of secret_name))] else [])
      /\ forall n, o <> Exited n)
  /\ gpg_cmd (enc_file_of secret_name)
     = ["gpg"; "--batch"; "--quiet"; "--yes"; "--passphrase-file";
        "/opt/credential_store/.gpg_passphrase"; "--decrypt";
        enc_file_of secret_name].
Proof.
  split; [|reflexivity].
  unfold get_password. fold (enc_file_of secret_name).
  destruct (os_path_exists W (enc_file_of secret_name)); cbn [negb].
  - unfold PyM.try_except, subprocess_run_check, PyM.bind, PyM.emit.
    destruct (spawn W _) as [[cls msg]|p]; cbn.
    + destruct cls; eexists; (split; [reflexivity | discriminate]).
    + destruct (cp_returncode p =? 0); eexists;
        (split; [reflexivity | discriminate]).
  - eexists. split; [reflexivity | discriminate].
Qed.

(** X2: an exception raised on starting gpg that is not a
    FileNotFoundError (a PermissionError, say) leaves [get_password] as it
    is, class and message unchanged; it is not turned into a RuntimeError. *)
Theorem X2_get_password_passes_on_other_errors
    (W : World) (secret_name : string) (e : exn) :
  os_path_exists W (enc_file_of secret_name) = true ->
  spawn W (gpg_cmd (enc_file_of secret_name)) = inl e ->
  exc_type e <> FileNotFoundError ->
  get_password W secret_name tt
  = (Raised e, tt, [EvSpawn (gpg_cmd (enc_file_of secret_name))]).
Proof.
  intros Hex Hrun Hcls. unfold get_password. fold (enc_file_of secret_name).
  rewrite Hex. cbn [negb].
  unfold PyM.try_except, subprocess_run_check, PyM.bind, PyM.emit.
  rewrite Hrun. destruct e as [cls msg]. cbn in *.
  destruct cls; try reflexivity. contradiction.
Qed.

Lemma X2_get_password_passes_on_other_errors_witness :
  get_password (Worlds.with_secret Worlds.user_file Faults.gpg_denied) "u" tt
  = (Raised (Exn (OtherError "PermissionError")
               "[Errno 13] Permission denied: 'gpg'"),
     tt, [EvSpawn (gpg_cmd Worlds.user_file)]).
Proof.
  apply (X2_get_password_passes_on_other_errors
           (Worlds.with_secret Worlds.user_file Faults.gpg_denied) "u"
           (Exn (OtherError "PermissionError")
              "[Errno 13] Permission denied: 'gpg'")
           eq_refl eq_refl).
  discriminate.
Defined.

(** X3: when gpg succeeds and its output neither starts nor ends with
    whitespace, [get_password] returns that output unchanged. *)
Theorem X3_get_password_keeps_clean_output
    (W : World) (secret_name : string) (p : CompletedProcess) :
  os_path_exists W (enc_file_of secret_name) = true ->
  spawn W (gpg_cmd (enc_file_of secret_name)) = inr p ->
  cp_returncode p = 0 ->
  PyStr.starts_space (cp_stdout p) = false ->
  PyStr.ends_space (cp_stdout p) = false ->
  get_password W secret_name tt
  = (Returned (cp_stdout p), tt, [EvSpawn (gpg_cmd (enc_file_of secret_name))]).
Proof.
  intros Hex Hrun Hrc Hhd Htl.
  rewrite (get_password_decrypted W secret_name p Hex Hrun Hrc).
  unfold PyStr.strip. now rewrite (lstrip_id _ Hhd), (rstrip_id _ Htl).
Qed.

Lemma X3_get_password_keeps_clean_output_witness :
  get_password
    (Worlds.with_secret Worlds.user_file (Worlds.gpg_prints "pass word")) "u" tt
  = (Returned "pass word", tt, [EvSpawn (gpg_cmd Worlds.user_file)]).
Proof.
  exact (X3_get_password_keeps_clean_output
           (Worlds.with_secret Worlds.user_file (Worlds.gpg_prints "pass word"))
           "u" {| cp_returncode := 0; cp_stdout := "pass word"; cp_stderr := "" |}
           eq_refl eq_refl eq_refl eq_refl eq_refl).
Defined.

(** X5: a secret name without a slash is looked up as one entry of the
    secrets directory, [{name}_secret.txt.gpg], which has no slash either;
    two different such names are looked up as two different entries of
    that directory. *)
Theorem X5_plain_names_have_distinct_entries (n1 n2 : string) :
  PyStr.has_char "/" n1 = false ->
  PyStr.has_char "/" n2 = false ->
  n1 <> n2 ->
  exists e1 e2,
    enc_file_of n1 = SECRETS_DIR +:+ "/" +:+ e1
    /\ enc_file_of n2 = SECRETS_DIR +:+ "/" +:+ e2
    /\ PyStr.has_char "/" e1 = false
    /\ PyStr.has_char "/" e2 = false
    /\ e1 <> e2.
Proof.
  intros H1 H2 Hne.
  exists (n1 +:+ "_secret.txt.gpg"), (n2 +:+ "_secret.txt.gpg").
  split; [apply os_path_join_relative, no_slash_not_absolute, H1|].
  split; [apply os_path_join_relative, no_slash_not_absolute, H2|].
  split; [rewrite has_char_append, H1; reflexivity|].
  split; [rewrite has_char_append, H2; reflexivity|].
  intros Heq. apply Hne. now apply append_cancel_r in Heq.
Qed.

Lemma X5_plain_names_have_distinct_entries_witness :
  exists e1 e2,
    enc_file_of "u" = SECRETS_DIR +:+ "/" +:+ e1
    /\ enc_file_of "p" = SECRETS_DIR +:+ "/" +:+ e2
    /\ PyStr.has_char "/" e1 = false
    /\ PyStr.has_char "/" e2 = false
    /\ e1 <> e2.
Proof.
  apply (X5_plain_names_have_distinct_entries "u" "p" eq_refl eq_refl).
  discriminate.
Defined.

(** X6: whatever the secret name, the file handed to gpg for decryption is
    not the passphrase file. *)
Theorem X6_passphrase_file_is_never_the_target (secret_name : string) :
  enc_file_of secret_name <> GPG_PASSPHRASE_FILE.
Proof.
  intros Heq. apply (f_equal PyStr.last_char) in Heq.
  assert (Hsuf : "_secret.txt.gpg" <> "") by discriminate.
  destruct (PyStr.startswith_char "/" secret_name) eqn:Hs.
  - rewrite (os_path_join_absolute _ Hs), (last_char_append _ _ Hsuf) in Heq.
    discriminate Heq.
  - rewrite (os_path_join_relative _ Hs) in Heq.
    rewrite last_char_append in Heq.
    + rewrite last_char_append in Heq.
      * rewrite (last_char_append _ _ Hsuf) in Heq. discriminate Heq.
      * destruct secret_name; discriminate.
    + discriminate.
Qed.

(** ** Further properties of the connection builders *)

Section StderrFacts.

Lemma stderr_prints_cons (ev : event) (t : list event) :
  stderr_prints (ev :: t)
  = match ev with
    | EvStderr l => l :: stderr_prints t
    | _ => stderr_prints t
    end.
Proof. destruct ev; reflexivity. Qed.

Lemma stderr_prints_spawn_app (t1 t : list event) :
  forallb is_spawn t1 = true -> stderr_prints (t1 ++ t) = stderr_prints t.
Proof.
  induction t1 as [|ev t1 IH]; cbn [app forallb]; [reflexivity|].
  intros H. apply andb_prop in H as [Hev Ht].
  destruct ev; try discriminate. rewrite stderr_prints_cons. now apply IH.
Qed.

Lemma get_secret_of_retriever (W : World) :
  mod_dict (Worlds.retriever_with_get_secret W) !! "get_secret"
  = Some (PFun (get_password W)).
Proof. apply lookup_insert_eq. Qed.

Ltac stderr_leaf :=
  repeat split; try assumption; try reflexivity; try eexists;
  trace_norm;
  repeat first
    [ rewrite stderr_prints_cons; cbn beta iota
    | rewrite stderr_prints_spawn_app by assumption ];
  reflexivity.

(** The ends of [create_ldap_connection]. *)
Lemma ldap_run_shape (W : World) (sr : module)
    (ldap_server us ps : string) :
  plain_module sr ->
  match create_ldap_connection W sr ldap_server us ps ldap_frame0 with
  | (Returned oud, fr, t) =>
      bound oud = true /\ fr = ldap_frame0 /\ stderr_prints t = []
  | (Raised _, _, _) => False
  | (Exited n, _, t) =>
      n = 1 /\ exists msg,
        stderr_prints t = ["Error creating LDAP connection: " +:+ msg]
  end.
Proof.
  intros Hplain. py_unfold. unfold plain_module, plain_retriever in Hplain.
  destruct (mod_dict sr !! "get_secret") as [[s|f|m]|] eqn:Hl; cbn;
    try (stderr_leaf; fail).
  pose proof (Hplain f eq_refl us) as Hu.
  destruct (f us tt) as [[[u|e|n] []] t1]; cbn in *;
    try (stderr_leaf; fail); try contradiction.
  pose proof (Hplain f eq_refl ps) as Hp.
  destruct (f ps tt) as [[[p|e|n] []] t2]; cbn in *;
    try (stderr_leaf; fail); try contradiction.
  destruct (ldap3_Server W ldap_server 636 ALL true
              (Some {| validate := CERT_NONE |})) as [e|srv]; cbn;
    try (stderr_leaf; fail).
  destruct (ldap3_Connection W srv u p true)
    as [e|oud]; cbn; try (stderr_leaf; fail).
  destruct (bound oud) eqn:Hb; cbn; stderr_leaf.
Qed.

(** The ends of [create_db_connection], by what they print. *)
Lemma db_run_shape (W : World) (sr : module)
    (dbhost : string) (dbport : Z) (dbsid us ps : string) (engine_only : bool) :
  plain_module sr ->
  match create_db_connection W sr dbhost dbport dbsid us ps engine_only db_frame0 with
  | (Returned _, fr, t) =>
      db_user fr = None /\ db_pswd fr = None /\ stderr_prints t = []
  | (Raised _, _, _) => False
  | (Exited n, _, t) =>
      n = 1 /\ exists msg,
        stderr_prints t = ["Error creating database connection: " +:+ msg]
  end.
Proof.
  intros Hplain. py_unfold. unfold plain_module, plain_retriever in Hplain.
  destruct (mod_dict sr !! "get_secret") as [[s|f|m]|] eqn:Hl; cbn;
    try (stderr_leaf; fail).
  pose proof (Hplain f eq_refl us) as Hu.
  destruct (f us tt) as [[[u|e|n] []] t1]; cbn in *;
    try (stderr_leaf; fail); try contradiction.
  destruct (PyStr.truthy u); cbn; try (stderr_leaf; fail).
  pose proof (Hplain f eq_refl ps) as Hp.
  destruct (f ps tt) as [[[p|e|n] []] t2]; cbn in *;
    try (stderr_leaf; fail); try contradiction.
  destruct (PyStr.truthy p); cbn; try (stderr_leaf; fail).
  destruct (cx_makedsn W dbhost dbport dbsid) as [e|dsn]; cbn;
    try (stderr_leaf; fail).
  destruct (sqlalchemy_create_engine W (connect_string u p dsn) 128)
    as [e|en]; cbn; try (stderr_leaf; fail).
  destruct engine_only; cbn; try (stderr_leaf; fail).
  destruct (engine_connect W en) as [e|c]; cbn; stderr_leaf.
Qed.

Lemma ldap_run_user_raises (W : World) (sr : module)
    (gs : string -> M exn unit string) (ldap_server us ps : string)
    (e : exn) (t1 : list event) :
  mod_dict sr !! "get_secret" = Some (PFun gs) ->
  gs us tt = (Raised e, tt, t1) ->
  create_ldap_connection W sr ldap_server us ps ldap_frame0
  = (Exited 1, ldap_frame0,
     [EvAssign "oud_user" None; EvAssign "oud_pswd" None] ++ t1
     ++ [EvStderr ("Error creating LDAP connection: " +:+ exc_str e)]).
Proof.
  intros Hgs Hu. py_unfold. rewrite Hgs. cbn. rewrite Hu. cbn.
  trace_norm. reflexivity.
Qed.

Lemma ldap_run_pswd_raises (W : World) (sr : module)
    (gs : string -> M exn unit string) (ldap_server us ps u : string)
    (e : exn) (t1 t2 : list event) :
  mod_dict sr !! "get_secret" = Some (PFun gs) ->
  gs us tt = (Returned u, tt, t1) ->
  gs ps tt = (Raised e, tt, t2) ->
  create_ldap_connection W sr ldap_server us ps ldap_frame0
  = (Exited 1, {| oud_user := Some u; oud_pswd := None |},
     [EvAssign "oud_user" None; EvAssign "oud_pswd" None] ++ t1
     ++ [EvAssign "oud_user" (Some u)] ++ t2
     ++ [EvStderr ("Error creating LDAP connection: " +:+ exc_str e)]).
Proof.
  intros Hgs Hu Hp. py_unfold. rewrite Hgs. cbn. rewrite Hu. cbn.
  rewrite Hp. cbn. trace_norm. reflexivity.
Qed.

End StderrFacts.

(** X4: with [get_secret] bound to [get_password], a username secret that
    decrypts to nothing but whitespace is stripped to the empty string and
    refused by [create_db_connection]: the process ends with status 1 on
    the empty-username message, and the password secret is never
    decrypted. *)
Theorem X4_blank_username_secret_is_refused
    (W : World) (dbhost : string) (dbport : Z) (dbsid us ps : string)
    (engine_only : bool) (p : CompletedProcess) :
  os_path_exists W (enc_file_of us) = true ->
  spawn W (gpg_cmd (enc_file_of us)) = inr p ->
  cp_returncode p = 0 ->
  PyStr.all_space (cp_stdout p) = true ->
  create_db_connection W (Worlds.retriever_with_get_secret W)
    dbhost dbport dbsid us ps engine_only db_frame0
  = (Exited 1,
     {| db_user := Some ""; db_pswd := None; engine := None; conn := None |},
     [EvAssign "db_user" None; EvAssign "db_pswd" None;
      EvSpawn (gpg_cmd (enc_file_of us));
      EvAssign "db_user" (Some "");
      EvStderr ("Error creating database connection: "
                +:+ "Retrieved empty username secret for '" +:+ us +:+ "'")]).
Proof.
  intros Hex Hrun Hrc Hsp.
  pose proof (get_password_decrypted W us p Hex Hrun Hrc) as Hget.
  rewrite (strip_all_space _ Hsp) in Hget.
  exact (db_run_empty_user W _ _ (get_secret_of_retriever W)
           dbhost dbport dbsid us ps engine_only _ Hget).
Qed.

Lemma X4_blank_username_secret_is_refused_witness :
  let W := Worlds.lab (" " +:+ Worlds.LF) ("tiger" +:+ Worlds.LF)
             Worlds.ldap_bound Worlds.engine_ok Worlds.conn_ok in
  create_db_connection W (Worlds.retriever_with_get_secret W)
    "dbhost" 1521 "ORCL" "u" "p" false db_frame0
  = (Exited 1,
     {| db_user := Some ""; db_pswd := None; engine := None; conn := None |},
     [EvAssign "db_user" None; EvAssign "db_pswd" None;
      EvSpawn (gpg_cmd Worlds.user_file);
      EvAssign "db_user" (Some "");
      EvStderr "Error creating database connection: Retrieved empty username secret for 'u'"]).
Proof.
  exact (X4_blank_username_secret_is_refused
           (Worlds.lab (" " +:+ Worlds.LF) ("tiger" +:+ Worlds.LF)
              Worlds.ldap_bound Worlds.engine_ok Worlds.conn_ok)
           "dbhost" 1521 "ORCL" "u" "p" false
           {| cp_returncode := 0; cp_stdout := " " +:+ Worlds.LF; cp_stderr := "" |}
           eq_refl eq_refl eq_refl eq_refl).
Defined.

(** X7: a call of [create_ldap_connection] that returns returns a bound
    connection, with both credential variables reset and nothing printed to
    stderr; a call that leaves the process does so with status 1 after
    exactly one [print] to stderr, whose text starts with
    [Error creating LDAP connection: ] and goes on with the message of the
    exception, on as many lines as that message has.  No call ends with an
    exception. *)
Theorem X7_ldap_returns_bound_or_exits
    (W : World) (sr : module) (ldap_server us ps : string)
    (o : outcome exn Connection) (fr : ldap_frame) (t : list event) :
  plain_module sr ->
  create_ldap_connection W sr ldap_server us ps ldap_frame0 = (o, fr, t) ->
  (forall e, o <> Raised e)
  /\ (forall oud, o = Returned oud ->
                  bound oud = true
                  /\ oud_user fr = None /\ oud_pswd fr = None
                  /\ stderr_prints t = [])
  /\ (forall n, o = Exited n ->
                n = 1 /\ exists msg,
                  stderr_prints t = ["Error creating LDAP connection: " +:+ msg]).
Proof.
  intros Hplain Hrun.
  pose proof (ldap_run_shape W sr ldap_server us ps Hplain) as Hshape.
  rewrite Hrun in Hshape. destruct o as [oud|e|n].
  - destruct Hshape as (Hb & -> & Hs).
    split; [discriminate|]. split.
    + intros oud' Ho. injection Ho as <-. now repeat split.
    + intros n Hn. discriminate Hn.
  - contradiction.
  - split; [discriminate|]. split.
    + intros oud Ho. discriminate Ho.
    + intros m Hm. injection Hm as <-. exact Hshape.
Qed.

Lemma X7_ldap_returns_bound_or_exits_witness :
  let W := Worlds.scott_tiger Worlds.ldap_bound Worlds.conn_ok in
  exists t,
    create_ldap_connection W (Worlds.retriever_with_get_secret W)
      "ldap.example.org" "u" "p" ldap_frame0
    = (Returned {| ldap_handle := 1; bound := true |}, ldap_frame0, t)
    /\ stderr_prints t = [].
Proof.
  cbv zeta. eexists. split; [reflexivity|].
  destruct (X7_ldap_returns_bound_or_exits
              (Worlds.scott_tiger Worlds.ldap_bound Worlds.conn_ok)
              (Worlds.retriever_with_get_secret
                 (Worlds.scott_tiger Worlds.ldap_bound Worlds.conn_ok))
              "ldap.example.org" "u" "p" _ _ _
              (retriever_with_get_secret_plain _) eq_refl)
    as (_ & Hret & _).
  exact (proj2 (proj2 (proj2 (Hret _ eq_refl)))).
Defined.

(** X8: in [create_ldap_connection] the username is retrieved first.  When
    that retrieval raises, its message is printed and the process ends with
    status 1: the password is not retrieved and no bind is attempted.  When
    the password retrieval raises, the same happens with the username still
    in its variable, and again no bind is attempted. *)
Theorem X8_ldap_retrieval_failure
    (W : World) (sr : module) (gs : string -> M exn unit string)
    (ldap_server us ps : string) :
  mod_dict sr !! "get_secret" = Some (PFun gs) ->
  (forall e t1,
      gs us tt = (Raised e, tt, t1) ->
      create_ldap_connection W sr ldap_server us ps ldap_frame0
      = (Exited 1, ldap_frame0,
         [EvAssign "oud_user" None; EvAssign "oud_pswd" None] ++ t1
         ++ [EvStderr ("Error creating LDAP connection: " +:+ exc_str e)]))
  /\ (forall u e t1 t2,
         gs us tt = (Returned u, tt, t1) ->
         gs ps tt = (Raised e, tt, t2) ->
         create_ldap_connection W sr ldap_server us ps ldap_frame0
         = (Exited 1, {| oud_user := Some u; oud_pswd := None |},
            [EvAssign "oud_user" None; EvAssign "oud_pswd" None] ++ t1
            ++ [EvAssign "oud_user" (Some u)] ++ t2
            ++ [EvStderr ("Error creating LDAP connection: " +:+ exc_str e)])).
Proof.
  intros Hgs. split.
  - intros e t1 Hu. now apply (ldap_run_user_raises W sr gs).
  - intros u e t1 t2 Hu Hp. now apply (ldap_run_pswd_raises W sr gs).
Qed.

(** Only the username secret is on the host. *)
Lemma X8_ldap_retrieval_failure_witness :
  create_ldap_connection Faults.only_user
    (Worlds.retriever_with_get_secret Faults.only_user)
    "ldap.example.org" "u" "p" ldap_frame0
  = (Exited 1, {| oud_user := Some "scott"; oud_pswd := None |},
     [EvAssign "oud_user" None; EvAssign "oud_pswd" None;
      EvSpawn (gpg_cmd Worlds.user_file);
      EvAssign "oud_user" (Some "scott");
      EvStderr "Error creating LDAP connection: Encrypted secret for 'p' not found."]).
Proof.
  exact (proj2 (X8_ldap_retrieval_failure Faults.only_user
                  (Worlds.retriever_with_get_secret Faults.only_user)
                  (get_password Faults.only_user)
                  "ldap.example.org" "u" "p" eq_refl)
           "scott"
           (Exn FileNotFoundError "Encrypted secret for 'p' not found.")
           [EvSpawn (gpg_cmd Worlds.user_file)] [] eq_refl eq_refl).
Defined.

(** X9: when [cx.makedsn] raises in [create_db_connection], the handler
    prints the message and the process ends with status 1 with both
    credentials still in their variables; no connect string is composed and
    no engine is built. *)
Theorem X9_makedsn_failure_keeps_credentials
    (W : World) (sr : module) (gs : string -> M exn unit string)
    (dbhost : string) (dbport : Z) (dbsid us ps u p : string)
    (engine_only : bool) (t1 t2 : list event) (e : exn) :
  mod_dict sr !! "get_secret" = Some (PFun gs) ->
  gs us tt = (Returned u, tt, t1) -> PyStr.truthy u = true ->
  gs ps tt = (Returned p, tt, t2) -> PyStr.truthy p = true ->
  cx_makedsn W dbhost dbport dbsid = inl e ->
  create_db_connection W sr dbhost dbport dbsid us ps engine_only db_frame0
  = (Exited 1,
     {| db_user := Some u; db_pswd := Some p; engine := None; conn := None |},
     db_composed dbhost dbport dbsid u p t1 t2
     ++ [EvStderr ("Error creating database connection: " +:+ exc_str e)]).
Proof.
  intros Hgs Hu Hut Hp Hpt Hdsn. py_unfold.
  rewrite Hgs. cbn. rewrite Hu. cbn. rewrite Hut. cbn.
  rewrite Hp. cbn. rewrite Hpt. cbn. rewrite Hdsn. cbn.
  unfold db_composed. trace_norm. reflexivity.
Qed.

Lemma X9_makedsn_failure_keeps_credentials_witness :
  create_db_connection Faults.dsn_rejected
    (Worlds.retriever_with_get_secret Faults.dsn_rejected)
    "dbhost" 1521 "ORCL" "u" "p" false db_frame0
  = (Exited 1,
     {| db_user := Some "scott"; db_pswd := Some "tiger";
        engine := None; conn := None |},
     [EvAssign "db_user" None; EvAssign "db_pswd" None;
      EvSpawn (gpg_cmd Worlds.user_file);
      EvAssign "db_user" (Some "scott");
      EvSpawn (gpg_cmd Worlds.pswd_file);
      EvAssign "db_pswd" (Some "tiger");
      EvMakeDsn "dbhost" 1521 "ORCL";
      EvStderr "Error creating database connection: an integer is required"]).
Proof.
  exact (X9_makedsn_failure_keeps_credentials Faults.dsn_rejected
           (Worlds.retriever_with_get_secret Faults.dsn_rejected)
           (get_password Faults.dsn_rejected)
           "dbhost" 1521 "ORCL" "u" "p" "scott" "tiger" false
           [EvSpawn (gpg_cmd Worlds.user_file)]
           [EvSpawn (gpg_cmd Worlds.pswd_file)]
           (Exn TypeError "an integer is required")
           eq_refl eq_refl eq_refl eq_refl eq_refl eq_refl).
Defined.

(** X10: when [create_engine] raises in [create_db_connection], the
    message is printed and the process ends with status 1 without a call
    of [connect], [close] or [dispose]; when the engine is built and
    [connect] raises, the message is printed, then the engine is disposed
    of, once, and nothing is closed.  In both cases the credential
    variables are already reset. *)
Theorem X10_engine_and_connect_failures
    (W : World) (sr : module) (gs : string -> M exn unit string)
    (dbhost : string) (dbport : Z) (dbsid us ps u p dsn : string)
    (t1 t2 : list event) :
  mod_dict sr !! "get_secret" = Some (PFun gs) ->
  gs us tt = (Returned u, tt, t1) -> PyStr.truthy u = true ->
  gs ps tt = (Returned p, tt, t2) -> PyStr.truthy p = true ->
  cx_makedsn W dbhost dbport dbsid = inr dsn ->
  (forall engine_only ex,
      sqlalchemy_create_engine W (connect_string u p dsn) 128 = inl ex ->
      create_db_connection W sr dbhost dbport dbsid us ps engine_only db_frame0
      = (Exited 1,
         {| db_user := None; db_pswd := None; engine := None; conn := None |},
         db_prefix dbhost dbport dbsid u p dsn t1 t2
         ++ [EvStderr ("Error creating database connection: " +:+ exc_str ex)]))
  /\ (forall en ex,
         sqlalchemy_create_engine W (connect_string u p dsn) 128 = inr en ->
         engine_connect W en = inl ex ->
         create_db_connection W sr dbhost dbport dbsid us ps false db_frame0
         = (Exited 1,
            {| db_user := None; db_pswd := None;
               engine := Some en; conn := None |},
            db_prefix dbhost dbport dbsid u p dsn t1 t2
            ++ [EvEngineConnect en;
                EvStderr ("Error creating database connection: " +:+ exc_str ex);
                EvEngineDispose en])).
Proof.
  intros Hgs Hu Hut Hp Hpt Hdsn. split.
  - intros engine_only ex Hen.
    rewrite (db_run W sr gs Hgs dbhost dbport dbsid us ps u p dsn
               engine_only t1 t2 Hu Hut Hp Hpt Hdsn).
    cbv zeta. now rewrite Hen.
  - intros en ex Hen Hc.
    rewrite (db_run W sr gs Hgs dbhost dbport dbsid us ps u p dsn
               false t1 t2 Hu Hut Hp Hpt Hdsn).
    cbv zeta. now rewrite Hen, Hc.
Qed.

Lemma X10_engine_and_connect_failures_witness :
  (exists t,
      create_db_connection Faults.no_driver
        (Worlds.retriever_with_get_secret Faults.no_driver)
        "dbhost" 1521 "ORCL" "u" "p" false db_frame0
      = (Exited 1, db_frame0,
         t ++ [EvStderr "Error creating database connection: Can't load plugin: sqlalchemy.dialects:oracle.cx_oracle"]))
  /\ (let W := Worlds.scott_tiger Worlds.ldap_bound Worlds.conn_refused in
      exists t,
        create_db_connection W (Worlds.retriever_with_get_secret W)
          "dbhost" 1521 "ORCL" "u" "p" false db_frame0
        = (Exited 1, db_frame_with (Some {| engine_handle := 7 |}) None,
           t ++ [EvEngineConnect {| engine_handle := 7 |};
                 EvStderr "Error creating database connection: ORA-12541: TNS:no listener";
                 EvEngineDispose {| engine_handle := 7 |}])).
Proof.
  split.
  - eexists.
    exact (proj1 (X10_engine_and_connect_failures Faults.no_driver
                    (Worlds.retriever_with_get_secret Faults.no_driver)
                    (get_password Faults.no_driver)
                    "dbhost" 1521 "ORCL" "u" "p" "scott" "tiger"
                    (Worlds.oracle_dsn "dbhost" 1521 "ORCL")
                    [EvSpawn (gpg_cmd Worlds.user_file)]
                    [EvSpawn (gpg_cmd Worlds.pswd_file)]
                    eq_refl eq_refl eq_refl eq_refl eq_refl eq_refl)
             false
             (Exn (OtherError "NoSuchModuleError")
                "Can't load plugin: sqlalchemy.dialects:oracle.cx_oracle")
             eq_refl).
  - cbv zeta. eexists.
    exact (proj2 (X10_engine_and_connect_failures
                    (Worlds.scott_tiger Worlds.ldap_bound Worlds.conn_refused)
                    (Worlds.retriever_with_get_secret
                       (Worlds.scott_tiger Worlds.ldap_bound Worlds.conn_refused))
                    (get_password
                       (Worlds.scott_tiger Worlds.ldap_bound Worlds.conn_refused))
                    "dbhost" 1521 "ORCL" "u" "p" "scott" "tiger"
                    (Worlds.oracle_dsn "dbhost" 1521 "ORCL")
                    [EvSpawn (gpg_cmd Worlds.user_file)]
                    [EvSpawn (gpg_cmd Worlds.pswd_file)]
                    eq_refl eq_refl eq_refl eq_refl eq_refl eq_refl)
             {| engine_handle := 7 |}
             (Exn (OtherError "DatabaseError") "ORA-12541: TNS:no listener")
             eq_refl eq_refl).
Defined.

(** X11: in [create_db_connection] the username is retrieved first.  When
    that retrieval raises, its message is printed and the process ends with
    status 1 without the password being retrieved; when the password
    retrieval raises, the same happens with the username still in its
    variable.  In neither case is a DSN made or an engine built. *)
Theorem X11_db_retrieval_failure
    (W : World) (sr : module) (gs : string -> M exn unit string)
    (dbhost : string) (dbport : Z) (dbsid us ps : string) (engine_only : bool) :
  mod_dict sr !! "get_secret" = Some (PFun gs) ->
  (forall e t1,
      gs us tt = (Raised e, tt, t1) ->
      create_db_connection W sr dbhost dbport dbsid us ps engine_only db_frame0
      = (Exited 1, db_frame0,
         [EvAssign "db_user" None; EvAssign "db_pswd" None] ++ t1
         ++ [EvStderr ("Error creating database connection: " +:+ exc_str e)]))
  /\ (forall u e t1 t2,
         gs us tt = (Returned u, tt, t1) -> PyStr.truthy u = true ->
         gs ps tt = (Raised e, tt, t2) ->
         create_db_connection W sr dbhost dbport dbsid us ps engine_only db_frame0
         = (Exited 1,
            {| db_user := Some u; db_pswd := None;
               engine := None; conn := None |},
            [EvAssign "db_user" None; EvAssign "db_pswd" None] ++ t1
            ++ [EvAssign "db_user" (Some u)] ++ t2
            ++ [EvStderr ("Error creating database connection: "
                          +:+ exc_str e)])).
Proof.
  intros Hgs. split.
  - intros e t1 Hu. py_unfold. rewrite Hgs. cbn. rewrite Hu. cbn.
    trace_norm. reflexivity.
  - intros u e t1 t2 Hu Hut Hp. py_unfold. rewrite Hgs. cbn. rewrite Hu. cbn.
    rewrite Hut. cbn. rewrite Hp. cbn. trace_norm. reflexivity.
Qed.

(** No secret is on the host: the first retrieval fails and gpg is never
    started. *)
Lemma X11_db_retrieval_failure_witness :
  create_db_connection Worlds.barren
    (Worlds.retriever_with_get_secret Worlds.barren)
    "dbhost" 1521 "ORCL" "u" "p" false db_frame0
  = (Exited 1, db_frame0,
     [EvAssign "db_user" None; EvAssign "db_pswd" None;
      EvStderr "Error creating database connection: Encrypted secret for 'u' not found."]).
Proof.
  exact (proj1 (X11_db_retrieval_failure Worlds.barren
                  (Worlds.retriever_with_get_secret Worlds.barren)
                  (get_password Worlds.barren)
                  "dbhost" 1521 "ORCL" "u" "p" false eq_refl)
           (Exn FileNotFoundError "Encrypted secret for 'u' not found.")
           [] eq_refl).
Defined.

(** X12: a call of [create_db_connection] that returns has both credential
    variables reset and has printed nothing to stderr; one that leaves the
    process has made exactly one [print] to stderr, whose text starts with
    [Error creating database connection: ] and goes on with the message of
    the exception, on as many lines as that message has. *)
Theorem X12_db_prints_once_on_failure_only
    (W : World) (sr : module)
    (dbhost : string) (dbport : Z) (dbsid us ps : string) (engine_only : bool)
    (o : outcome exn db_result) (fr : db_frame) (t : list event) :
  plain_module sr ->
  create_db_connection W sr dbhost dbport dbsid us ps engine_only db_frame0
  = (o, fr, t) ->
  (forall v, o = Returned v ->
             db_user fr = None /\ db_pswd fr = None /\ stderr_prints t = [])
  /\ (forall n, o = Exited n ->
                exists msg,
                  stderr_prints t
                  = ["Error creating database connection: " +:+ msg]).
Proof.
  intros Hplain Hrun.
  pose proof (db_run_shape W sr dbhost dbport dbsid us ps engine_only Hplain)
    as Hshape.
  rewrite Hrun in Hshape. destruct o as [v|e|n].
  - split; [intros _ _; exact Hshape | intros n Hn; discriminate Hn].
  - contradiction.
  - split; [intros v Hv; discriminate Hv | intros _ _; exact (proj2 Hshape)].
Qed.

Lemma X12_db_prints_once_on_failure_only_witness :
  let W := Worlds.scott_tiger Worlds.ldap_bound Worlds.conn_refused in
  stderr_prints
    (snd (create_db_connection W (Worlds.retriever_with_get_secret W)
            "dbhost" 1521 "ORCL" "u" "p" false db_frame0))
  = ["Error creating database connection: ORA-12541: TNS:no listener"].
Proof.
  cbv zeta.
  destruct (proj2 (X12_db_prints_once_on_failure_only
                     (Worlds.scott_tiger Worlds.ldap_bound Worlds.conn_refused)
                     (Worlds.retriever_with_get_secret
                        (Worlds.scott_tiger Worlds.ldap_bound Worlds.conn_refused))
                     "dbhost" 1521 "ORCL" "u" "p" false _ _ _
                     (retriever_with_get_secret_plain _) eq_refl)
              1 eq_refl) as [msg Hmsg].
  reflexivity.
Defined.

(** X13: the connect string joins the two credentials with a colon and
    escapes nothing, so a colon inside a credential moves the boundary: the
    username [u:p] with the password [q] and the username [u] with the
    password [p:q] give the same connect string. *)
Theorem X13_connect_string_does_not_escape (u p q dsn : string) :
  connect_string (u +:+ ":" +:+ p) q dsn = connect_string u (p +:+ ":" +:+ q) dsn.
Proof. unfold connect_string. now rewrite !append_assoc. Qed.

(** X14: with [get_secret] bound to [get_password], a username secret
    whose file is missing makes [create_ldap_connection] print the
    not-found message of [get_password] and end the process with status 1;
    gpg is not started and no bind is attempted. *)
Theorem X14_missing_secret_file_stops_ldap
    (W : World) (ldap_server us ps : string) :
  os_path_exists W (enc_file_of us) = false ->
  create_ldap_connection W (Worlds.retriever_with_get_secret W)
    ldap_server us ps ldap_frame0
  = (Exited 1, ldap_frame0,
     [EvAssign "oud_user" None; EvAssign "oud_pswd" None;
      EvStderr ("Error creating LDAP connection: "
                +:+ "Encrypted secret for '" +:+ us +:+ "' not found.")]).
Proof.
  intros Hex.
  exact (ldap_run_user_raises W _ _ ldap_server us ps _ _
           (get_secret_of_retriever W) (get_password_absent W us Hex)).
Qed.

Lemma X14_missing_secret_file_stops_ldap_witness :
  create_ldap_connection Worlds.barren
    (Worlds.retriever_with_get_secret Worlds.barren)
    "ldap.example.org" "u" "p" ldap_frame0
  = (Exited 1, ldap_frame0,
     [EvAssign "oud_user" None; EvAssign "oud_pswd" None;
      EvStderr "Error creating LDAP connection: Encrypted secret for 'u' not found."]).
Proof.
  exact (X14_missing_secret_file_stops_ldap Worlds.barren
           "ldap.example.org" "u" "p" eq_refl).
Defined.

(** X15: unlike [create_db_connection], [create_ldap_connection] does not
    test its credentials for emptiness: with an empty username and an empty
    password it still calls [Server], and when that call returns it makes
    the bind attempt with the two empty strings. *)
Theorem X15_ldap_binds_with_empty_credentials
    (W : World) (sr : module) (gs : string -> M exn unit string)
    (ldap_server us ps : string) (t1 t2 : list event) (srv : Server) :
  mod_dict sr !! "get_secret" = Some (PFun gs) ->
  gs us tt = (Returned "", tt, t1) ->
  gs ps tt = (Returned "", tt, t2) ->
  ldap3_Server W ldap_server 636 ALL true (Some {| validate := CERT_NONE |})
  = inr srv ->
  exists o fr t',
    create_ldap_connection W sr ldap_server us ps ldap_frame0
    = (o, fr,
       [EvAssign "oud_user" None; EvAssign "oud_pswd" None] ++ t1
       ++ [EvAssign "oud_user" (Some "")] ++ t2
       ++ [EvAssign "oud_pswd" (Some "");
           EvLdapServer ldap_server 636 ALL true
             (Some {| validate := CERT_NONE |});
           EvLdapConnect srv "" "" true] ++ t').
Proof.
  intros Hgs Hu Hp Hsrv.
  rewrite (ldap_run W sr gs Hgs ldap_server us ps "" "" t1 t2 srv Hu Hp Hsrv).
  unfold ldap_prefix, ldap_served.
  destruct (ldap3_Connection W srv "" "" true) as [e|oud].
  - eexists _, _, [_]. trace_norm. reflexivity.
  - destruct (bound oud).
    + eexists _, _, [_; _]. trace_norm. reflexivity.
    + eexists _, _, [_; _; _]. trace_norm. reflexivity.
Qed.

(** Both secrets decrypt to a bare line feed. *)
Lemma X15_ldap_binds_with_empty_credentials_witness :
  let W := Worlds.lab Worlds.LF Worlds.LF
             Worlds.ldap_refuses Worlds.engine_ok Worlds.conn_ok in
  exists o fr t',
    create_ldap_connection W (Worlds.retriever_with_get_secret W)
      "ldap.example.org" "u" "p" ldap_frame0
    = (o, fr,
       [EvAssign "oud_user" None; EvAssign "oud_pswd" None;
        EvSpawn (gpg_cmd Worlds.user_file);
        EvAssign "oud_user" (Some "");
        EvSpawn (gpg_cmd Worlds.pswd_file);
        EvAssign "oud_pswd" (Some "");
        EvLdapServer "ldap.example.org" 636 ALL true
          (Some {| validate := CERT_NONE |});
        EvLdapConnect (Worlds.bare_host_server "ldap.example.org") "" "" true]
       ++ t').
Proof.
  exact (X15_ldap_binds_with_empty_credentials
           (Worlds.lab Worlds.LF Worlds.LF
              Worlds.ldap_refuses Worlds.engine_ok Worlds.conn_ok)
           (Worlds.retriever_with_get_secret
              (Worlds.lab Worlds.LF Worlds.LF
                 Worlds.ldap_refuses Worlds.engine_ok Worlds.conn_ok))
           (get_password
              (Worlds.lab Worlds.LF Worlds.LF
                 Worlds.ldap_refuses Worlds.engine_ok Worlds.conn_ok))
           "ldap.example.org" "u" "p"
           [EvSpawn (gpg_cmd Worlds.user_file)]
           [EvSpawn (gpg_cmd Worlds.pswd_file)]
           (Worlds.bare_host_server "ldap.example.org")
           eq_refl eq_refl eq_refl eq_refl).
Defined.
